(** * ORUtils::Image<T>: a shallow embedding of [ORUtils/Image.h]

    [Image<T>] owns up to two raw memory blocks, one addressable by the
    CPU and one by the GPU, and copies between them only on request.  The
    class is embedded over an explicit heap of blocks; each member
    function becomes a computation in a small monad whose outcomes are a
    normal return, a process abort, or undefined behaviour.

    Conventions.
    - [int] is 32 bits wide and [size_t] 64 bits wide (LP64).  Signed
      overflow is undefined behaviour; [size_t] arithmetic wraps.
    - A member that no constructor has assigned holds an indeterminate
      value, written [None]; reading it is undefined behaviour.
    - [isAllocated] is declared [int] but only ever stores the constants
      [false] and [true] and is only read as a condition, so it is a [bool]
      here.
    - The heap never runs out of memory: an allocation fails only when the
      requested size can not be the size of any object. *)

From Stdlib Require Import ZArith Lia Bool.
From Stdlib Require Import Init.Byte.
From stdpp Require Import base option list gmap.

Local Open Scope Z_scope.

(** ** Machine integers *)

Definition INT_MIN : Z := - 2 ^ 31.
Definition INT_MAX : Z := 2 ^ 31 - 1.
Definition SIZE_MODULUS : Z := 2 ^ 64.
(** No object is larger than [PTRDIFF_MAX] bytes. *)
Definition PTRDIFF_MAX : Z := 2 ^ 63 - 1.

Definition in_int (z : Z) : bool := (INT_MIN <=? z) && (z <=? INT_MAX).

(** The template parameter [T], as far as [Image] looks at it: the class
    only takes [sizeof(T)] and copies or fills objects of type [T] as raw
    bytes.  Pixel types are small, so [sizeof(T)] is below [2^32] and the
    byte size of an array of [INT_MAX] pixels still fits a block. *)
Class ElemType := {
  sizeofT : Z;
  sizeofT_range : (0 <? sizeofT) && (sizeofT <? 2 ^ 32) = true
}.

(** The build option tested by [#ifndef COMPILE_WITHOUT_CUDA]. *)
Class Build := { COMPILE_WITHOUT_CUDA : bool }.

(** Element types and builds used in the worked examples. *)
Definition uchar_t : ElemType := {| sizeofT := 1; sizeofT_range := eq_refl |}.
Definition float_t : ElemType := {| sizeofT := 4; sizeofT_range := eq_refl |}.
Definition cuda_build : Build := {| COMPILE_WITHOUT_CUDA := false |}.
Definition cpu_build : Build := {| COMPILE_WITHOUT_CUDA := true |}.

(** Modelled from the spec: [Vector2i] is declared in [Vector.h], which is
    not part of the sources at hand.  It is the two-dimensional integer
    extent, a pair of [int] members [x] and [y], compared member by
    member. *)
Record Vector2i := mkVector2i { x : Z; y : Z }.

Definition Vector2i_ne (a b : Vector2i) : bool :=
  negb (x a =? x b) || negb (y a =? y b).

(** ** Memory *)

(** Where a block lives decides who may touch it and who may free it:
    [new T[n]], [cudaMallocHost] (page-locked host memory) or
    [cudaMalloc] (device memory). *)
Inductive space := NewArray | PinnedHost | DeviceMem.

Definition space_eqb (a b : space) : bool :=
  match a, b with
  | NewArray, NewArray | PinnedHost, PinnedHost | DeviceMem, DeviceMem => true
  | _, _ => false
  end.

Definition on_host (s : space) : bool :=
  match s with DeviceMem => false | _ => true end.

Definition on_device (s : space) : bool :=
  match s with DeviceMem => true | _ => false end.

(** A byte of memory is a value or, when nothing has been stored there
    since the allocation, indeterminate. *)
Record block := Block {
  blk_space : space;
  blk_bytes : list (option byte)
}.

(** Blocks are named by numbers that are handed out in order and never
    reused, so a pointer to a released block stays dangling.  [freed] logs
    the deallocation calls, most recent first. *)
Record heap := Heap {
  live : gmap positive block;
  next_block : positive;
  freed : list positive
}.

Definition empty_heap : heap :=
  {| live := ∅; next_block := 1%positive; freed := [] |}.

Definition deref (h : heap) (p : option positive) : option block :=
  match p with
  | Some b => live h !! b
  | None => None
  end.

Definition store_block (b : positive) (blk : block) (h : heap) : heap :=
  {| live := <[b := blk]> (live h);
     next_block := next_block h;
     freed := freed h |}.

(** ** Outcomes *)

Inductive outcome (A : Type) : Type :=
| Done (a : A) (h : heap)
  (** normal return *)
| Fatal
  (** the process ends: a failed [ORcudaSafeCall] or an exception of
      [new] that nothing catches *)
| Undefined.
  (** the C++ standard gives the execution no meaning *)

Arguments Done {A} a h.
Arguments Fatal {A}.
Arguments Undefined {A}.

Definition M (A : Type) : Type := heap → outcome A.

Definition ret {A} (a : A) : M A := λ h, Done a h.

Definition bind {A B} (m : M A) (k : A → M B) : M B :=
  λ h, match m h with
       | Done a h' => k a h'
       | Fatal => Fatal
       | Undefined => Undefined
       end.

Definition fatal {A} : M A := λ _, Fatal.
Definition undefined {A} : M A := λ _, Undefined.

Notation "'let*' x ':=' c 'in' k" := (bind c (λ x, k))
  (at level 10, x name, c at level 100, k at level 200).
Notation "c ';;;' k" := (bind c (λ _, k))
  (at level 100, k at level 200, right associativity).

(** Reading a member: undefined while the member is indeterminate. *)
Definition read {A} (v : option A) : M A :=
  match v with
  | Some a => ret a
  | None => undefined
  end.

(** [a * b] on [int]. *)
Definition int_mul (a b : Z) : M Z :=
  if in_int (a * b) then ret (a * b) else undefined.

(** ** Allocation and release *)

(** A fresh block of [size] indeterminate bytes. *)
Definition alloc (s : space) (size : Z) : M positive :=
  λ h, let b := next_block h in
       Done b {| live := <[b := Block s (replicate (Z.to_nat size) None)]> (live h);
                 next_block := Pos.succ b;
                 freed := freed h |}.

(** Releasing block [b], which must be live and come from the matching
    allocation function. *)
Definition release (s : space) (b : positive) : M unit :=
  λ h, match live h !! b with
       | Some blk =>
           if space_eqb (blk_space blk) s then
             Done tt {| live := delete b (live h);
                        next_block := next_block h;
                        freed := b :: freed h |}
           else Undefined
       | None => Undefined
       end.

Section Primitives.
Context {T : ElemType}.

(** [n * sizeof(T)] with [n] an [int]: the [int] is converted to
    [size_t] and the product is taken modulo [2^64]. *)
Definition size_bytes (n : Z) : Z := (n * sizeofT) mod SIZE_MODULUS.

(** [new T[n]].  A negative [n] makes the expression throw, and nothing in
    [Image] catches the exception.  [T] is a plain pixel type, whose
    default initialisation leaves the elements indeterminate. *)
Definition new_array (n : Z) : M positive :=
  if n <? 0 then fatal else alloc NewArray (n * sizeofT).

(** [delete[] p]. *)
Definition delete_array (p : positive) : M unit := release NewArray p.

End Primitives.

(** [memset(p, v, n)]: [p] must point to a live block that the CPU can
    address and that holds at least [n] bytes. *)
Definition fill (v : byte) (n : Z) (bs : list (option byte)) : list (option byte) :=
  replicate (Z.to_nat n) (Some v) ++ drop (Z.to_nat n) bs.

Definition set_mem (where_ok : space → bool) (p : positive) (v : byte) (n : Z) : M unit :=
  λ h, match live h !! p with
       | Some blk =>
           if where_ok (blk_space blk) && (n <=? Z.of_nat (length (blk_bytes blk))) then
             Done tt (store_block p (Block (blk_space blk) (fill v n (blk_bytes blk))) h)
           else Undefined
       | None => Undefined
       end.

Definition memset (p : positive) (v : byte) (n : Z) : M unit :=
  set_mem on_host p v n.

(** [memcpy(dst, src, n)]: both blocks live and large enough; the two
    areas must not overlap. *)
Definition copy_prefix (n : Z) (src dst : list (option byte)) : list (option byte) :=
  take (Z.to_nat n) src ++ drop (Z.to_nat n) dst.

Definition copy_mem (dst_ok src_ok : space → bool) (dst src : positive) (n : Z) : M unit :=
  λ h, match live h !! dst, live h !! src with
       | Some d, Some s =>
           if dst_ok (blk_space d) && src_ok (blk_space s)
              && (n <=? Z.of_nat (length (blk_bytes d)))
              && (n <=? Z.of_nat (length (blk_bytes s)))
              && (negb (dst =? src)%positive || (n =? 0))
           then Done tt (store_block dst
                           (Block (blk_space d) (copy_prefix n (blk_bytes s) (blk_bytes d))) h)
           else Undefined
       | _, _ => Undefined
       end.

Definition memcpy (dst src : positive) (n : Z) : M unit :=
  copy_mem on_host on_host dst src n.

(** *** The CUDA runtime

    Modelled from the spec: the CUDA runtime and the macro
    [ORcudaSafeCall] of [CUDADefines.h] are not part of the sources at
    hand.  The spec treats them as collaborators that allocate, free,
    fill and copy memory of the accelerator and that report any failure
    through one fatal channel.  A request for more than [PTRDIFF_MAX]
    bytes can not be served and is such a failure; a call that is handed
    a pointer it must not be handed has no defined meaning. *)

Inductive cudaMemcpyKind :=
| cudaMemcpyHostToDevice
| cudaMemcpyDeviceToHost
| cudaMemcpyDeviceToDevice.

Definition cudaMallocHost (size : Z) : M positive :=
  if size <=? PTRDIFF_MAX then alloc PinnedHost size else fatal.

Definition cudaMalloc (size : Z) : M positive :=
  if size <=? PTRDIFF_MAX then alloc DeviceMem size else fatal.

Definition cudaFreeHost (p : positive) : M unit := release PinnedHost p.

Definition cudaFree (p : positive) : M unit := release DeviceMem p.

Definition cudaMemset (p : positive) (v : byte) (n : Z) : M unit :=
  set_mem on_device p v n.

Definition cudaMemcpy (dst src : positive) (n : Z) (kind : cudaMemcpyKind) : M unit :=
  match kind with
  | cudaMemcpyHostToDevice => copy_mem on_device on_host dst src n
  | cudaMemcpyDeviceToHost => copy_mem on_host on_device dst src n
  | cudaMemcpyDeviceToDevice => copy_mem on_device on_device dst src n
  end.

(** ** The class [Image<T>] *)

(** The data members, in the order of the class.  A pointer is the number
    of the block it points to. *)
Record Image := mkImage {
  allocateGPU : bool;
  isAllocated : bool;
  data_host : option positive;
  data_device : option positive;
  noDims : option Vector2i;
  dataSize : option Z
}.

Definition set_isAllocated (v : bool) (this : Image) : Image :=
  mkImage (allocateGPU this) v (data_host this) (data_device this)
          (noDims this) (dataSize this).

Definition set_data_host (p : positive) (this : Image) : Image :=
  mkImage (allocateGPU this) (isAllocated this) (Some p) (data_device this)
          (noDims this) (dataSize this).

Definition set_data_device (p : positive) (this : Image) : Image :=
  mkImage (allocateGPU this) (isAllocated this) (data_host this) (Some p)
          (noDims this) (dataSize this).

Definition set_noDims (d : Vector2i) (this : Image) : Image :=
  mkImage (allocateGPU this) (isAllocated this) (data_host this) (data_device this)
          (Some d) (dataSize this).

Definition set_dataSize (n : Z) (this : Image) : Image :=
  mkImage (allocateGPU this) (isAllocated this) (data_host this) (data_device this)
          (noDims this) (Some n).

(** [GetData(useGPU)] *)
Definition GetData (useGPU : bool) (this : Image) : option positive :=
  if useGPU then data_device this else data_host this.

(** [explicit Image(bool allocateGPU = false)], for an object in automatic
    or dynamic storage: the body assigns [isAllocated], [noDims.x],
    [noDims.y] and [allocateGPU]; neither pointer and not [dataSize] is
    assigned. *)
Definition Image_ctor (allocateGPU : bool) : Image :=
  {| allocateGPU := allocateGPU;
     isAllocated := false;
     data_host := None;
     data_device := None;
     noDims := Some (mkVector2i 0 0);
     dataSize := None |}.

Section ImageMethods.
Context {T : ElemType} {B : Build}.

(** [void Allocate(Vector2i noDims)] *)
Definition Allocate (d : Vector2i) (this : Image) : M Image :=
  let* this :=
    (if negb (isAllocated this) then
       let this := set_noDims d this in
       let* n := int_mul (x d) (y d) in
       let this := set_dataSize n this in
       if allocateGPU this then
         if COMPILE_WITHOUT_CUDA then ret this
         else
           let* ph := cudaMallocHost (size_bytes n) in
           let this := set_data_host ph this in
           let* pd := cudaMalloc (size_bytes n) in
           ret (set_data_device pd this)
       else
         let* p := new_array n in
         ret (set_data_host p this)
     else ret this) in
  ret (set_isAllocated true this).

(** [void Clear(unsigned char defaultValue = 0)] *)
Definition Clear (defaultValue : byte) (this : Image) : M unit :=
  (let* p := read (data_host this) in
   let* n := read (dataSize this) in
   memset p defaultValue (size_bytes n));;;
  if COMPILE_WITHOUT_CUDA then ret tt
  else if allocateGPU this then
    let* p := read (data_device this) in
    let* n := read (dataSize this) in
    cudaMemset p defaultValue (size_bytes n)
  else ret tt.

(** [void Free()] *)
Definition Free (this : Image) : M Image :=
  (if isAllocated this then
     if allocateGPU this then
       if COMPILE_WITHOUT_CUDA then ret tt
       else
         (let* pd := read (data_device this) in cudaFree pd);;;
         (let* ph := read (data_host this) in cudaFreeHost ph)
     else
       let* p := read (data_host this) in delete_array p
   else ret tt);;;
  ret (set_isAllocated false this).

(** [void ChangeDims(Vector2i newDims)] *)
Definition ChangeDims (newDims : Vector2i) (this : Image) : M Image :=
  let* cur := read (noDims this) in
  if Vector2i_ne newDims cur || negb (isAllocated this) then
    let* this := Free this in
    Allocate newDims this
  else ret this.

(** [void UpdateDeviceFromHost()] *)
Definition UpdateDeviceFromHost (this : Image) : M unit :=
  if COMPILE_WITHOUT_CUDA then ret tt
  else if allocateGPU this then
    let* pd := read (data_device this) in
    let* ph := read (data_host this) in
    let* n := read (dataSize this) in
    cudaMemcpy pd ph (size_bytes n) cudaMemcpyHostToDevice
  else ret tt.

(** [void UpdateHostFromDevice()] *)
Definition UpdateHostFromDevice (this : Image) : M unit :=
  if COMPILE_WITHOUT_CUDA then ret tt
  else if allocateGPU this then
    let* ph := read (data_host this) in
    let* pd := read (data_device this) in
    let* n := read (dataSize this) in
    cudaMemcpy ph pd (size_bytes n) cudaMemcpyDeviceToHost
  else ret tt.

(** [void SetFrom(const Image<T> *source, bool copyHost = true,
    bool copyDevice = false)] *)
Definition SetFrom (source : Image) (copyHost copyDevice : bool) (this : Image) : M unit :=
  (if copyHost then
     let* dst := read (data_host this) in
     let* src := read (data_host source) in
     let* n := read (dataSize source) in
     memcpy dst src (size_bytes n)
   else ret tt);;;
  if COMPILE_WITHOUT_CUDA then ret tt
  else if copyDevice then
    let* dst := read (data_device this) in
    let* src := read (data_device source) in
    let* n := read (dataSize source) in
    cudaMemcpy dst src (size_bytes n) cudaMemcpyDeviceToDevice
  else ret tt.

(** [Image(Vector2i noDims, bool allocateGPU = false)]: the members start
    indeterminate, the body assigns two of them and calls [Allocate] and
    [Clear()]. *)
Definition Image_ctor_dims (noDims : Vector2i) (allocateGPU : bool) : M Image :=
  let this := {| allocateGPU := allocateGPU;
                 isAllocated := false;
                 data_host := None;
                 data_device := None;
                 noDims := None;
                 dataSize := None |} in
  let* this := Allocate noDims this in
  Clear x00 this;;;
  ret this.

(** [~Image()] *)
Definition Image_dtor (this : Image) : M Image := Free this.

(** *** The client's view of the storage *)

(** What a caller does with the pointer of [GetData(false)]: it stores the
    bytes [bs] at the start of the host block. *)
Definition write_host (bs : list byte) (this : Image) : M unit :=
  let* p := read (GetData false this) in
  λ h, match live h !! p with
       | Some blk =>
           if on_host (blk_space blk)
              && (Z.of_nat (length bs) <=? Z.of_nat (length (blk_bytes blk))) then
             Done tt (store_block p
                        (Block (blk_space blk)
                               (copy_prefix (Z.of_nat (length bs)) (Some <$> bs) (blk_bytes blk))) h)
           else Undefined
       | None => Undefined
       end.

Definition host_block (this : Image) (h : heap) : option block :=
  deref h (GetData false this).

Definition device_block (this : Image) (h : heap) : option block :=
  deref h (GetData true this).

Definition host_bytes (this : Image) (h : heap) : option (list (option byte)) :=
  blk_bytes <$> host_block this h.

Definition device_bytes (this : Image) (h : heap) : option (list (option byte)) :=
  blk_bytes <$> device_block this h.

(** [has_block h p s n]: [p] points to a live block of [n] bytes in
    space [s]. *)
Definition has_block (h : heap) (p : option positive) (s : space) (n : Z) : bool :=
  match deref h p with
  | Some blk => space_eqb (blk_space blk) s
                && (Z.of_nat (length (blk_bytes blk)) =? n)
  | None => false
  end.

(** The storage of an image with [dataSize] elements: the host block, and
    the device block exactly when the image is dual-domain.  A build
    without CUDA never gives a dual-domain image any storage. *)
Definition storage (this : Image) (h : heap) : bool :=
  match dataSize this with
  | Some n =>
      if allocateGPU this then
        negb COMPILE_WITHOUT_CUDA
        && has_block h (data_host this) PinnedHost (size_bytes n)
        && has_block h (data_device this) DeviceMem (size_bytes n)
      else has_block h (data_host this) NewArray (size_bytes n)
  | None => false
  end.

(** An allocated buffer in the sense of the data model: the flag is set
    and the storage is there. *)
Definition allocated (this : Image) (h : heap) : bool :=
  isAllocated this && storage this h.

(** The invariant of the class: whatever [Free] would release is there to
    be released. *)
Definition wf (this : Image) (h : heap) : bool :=
  negb (isAllocated this)
  || (allocateGPU this && COMPILE_WITHOUT_CUDA)
  || storage this h.

(** [dataSize] and [noDims] agree. *)
Definition dims_agree (this : Image) : bool :=
  match noDims this, dataSize this with
  | Some d, Some n => n =? x d * y d
  | _, _ => false
  end.

(** The same storage, block by block: [host_at] names the host block of
    an image of [n] elements and what it holds, [device_at] does so for
    the device block. *)
Record host_at (this : Image) (h : heap) (n : Z)
    (bh : positive) (s : space) (hb : list (option byte)) : Prop := {
  host_size : dataSize this = Some n;
  host_ptr : data_host this = Some bh;
  host_blk : live h !! bh = Some (Block s hb);
  host_space : on_host s = true;
  host_len : Z.of_nat (length hb) = size_bytes n
}.

Record device_at (this : Image) (h : heap) (n : Z)
    (bd : positive) (db : list (option byte)) : Prop := {
  device_build : COMPILE_WITHOUT_CUDA = false;
  device_size : dataSize this = Some n;
  device_ptr : data_device this = Some bd;
  device_blk : live h !! bd = Some (Block DeviceMem db);
  device_len : Z.of_nat (length db) = size_bytes n
}.

End ImageMethods.

(** ** Histories of calls *)

(** The member functions a caller can invoke on an existing image. *)
Inductive call :=
| CallAllocate (d : Vector2i)
| CallClear (v : byte)
| CallChangeDims (d : Vector2i)
| CallUpdateDeviceFromHost
| CallUpdateHostFromDevice
| CallSetFrom (source : Image) (copyHost copyDevice : bool)
| CallFree.

Section Histories.
Context {T : ElemType} {B : Build}.

Definition perform (c : call) (this : Image) : M Image :=
  match c with
  | CallAllocate d => Allocate d this
  | CallClear v => Clear v this;;; ret this
  | CallChangeDims d => ChangeDims d this
  | CallUpdateDeviceFromHost => UpdateDeviceFromHost this;;; ret this
  | CallUpdateHostFromDevice => UpdateHostFromDevice this;;; ret this
  | CallSetFrom source copyHost copyDevice =>
      SetFrom source copyHost copyDevice this;;; ret this
  | CallFree => Free this
  end.

Fixpoint perform_all (cs : list call) (this : Image) : M Image :=
  match cs with
  | [] => ret this
  | c :: cs => let* this := perform c this in perform_all cs this
  end.

(** What every history keeps: the members agree, or nothing has been
    allocated yet. *)
Definition dims_inv (this : Image) : Prop :=
  dims_agree this = true ∨ isAllocated this = false.

End Histories.

(** ** Worked states *)

(** A heap with the storage of three dual-domain images of [unsigned
    char] pixels, as a build with CUDA lays them out: [image_a] and
    [image_b] are 2x2, [image_c] is 2x1. *)
Definition bytes_of (l : list byte) : list (option byte) := Some <$> l.

Definition worked_heap : heap :=
  {| live :=
       <[1%positive := Block PinnedHost (bytes_of [x01; x02; x03; x04])]>
       (<[2%positive := Block DeviceMem (bytes_of [x11; x12; x13; x14])]>
       (<[3%positive := Block PinnedHost (bytes_of [x21; x22; x23; x24])]>
       (<[4%positive := Block DeviceMem (bytes_of [x31; x32; x33; x34])]>
       (<[5%positive := Block PinnedHost (bytes_of [x41; x42])]>
       (<[6%positive := Block DeviceMem (bytes_of [x51; x52])]> ∅)))));
     next_block := 7%positive;
     freed := [] |}.

Definition image_a : Image :=
  mkImage true true (Some 1%positive) (Some 2%positive) (Some (mkVector2i 2 2)) (Some 4).

Definition image_b : Image :=
  mkImage true true (Some 3%positive) (Some 4%positive) (Some (mkVector2i 2 2)) (Some 4).

Definition image_c : Image :=
  mkImage true true (Some 5%positive) (Some 6%positive) (Some (mkVector2i 2 1)) (Some 2).

(** ** Bookkeeping of the allocator *)

(** Every live block was handed out before: its number lies below the
    next one to hand out. *)
Definition heap_ok (h : heap) : bool :=
  forallb (λ kv, (kv.1 <? next_block h)%positive) (map_to_list (live h)).

(** The calls that work on the content only. *)
Definition content_call (c : call) : bool :=
  match c with
  | CallClear _ | CallUpdateDeviceFromHost | CallUpdateHostFromDevice
  | CallSetFrom _ _ _ => true
  | CallAllocate _ | CallChangeDims _ | CallFree => false
  end.

(** [h'] differs from [h] at most in what the blocks of [this] hold:
    nothing was allocated or released, the same blocks are live, and
    every block that [this] does not point to is as it was. *)
Definition only_writes (this : Image) (h h' : heap) : Prop :=
  next_block h' = next_block h
  ∧ freed h' = freed h
  ∧ dom (live h') = dom (live h)
  ∧ ∀ b, Some b ≠ data_host this → Some b ≠ data_device this →
         live h' !! b = live h !! b.

(** The pointers of [this], as far as they are assigned, name blocks
    handed out at [nx] or later. *)
Definition fresh_ptrs (nx : positive) (this : Image) : Prop :=
  (∀ p, data_host this = Some p → (nx <= p)%positive)
  ∧ (∀ p, data_device this = Some p → (nx <= p)%positive).

(** The object as the constructor [Image(Vector2i, bool)] has it when it
    calls [Allocate]. *)
Definition Image_raw (allocateGPU : bool) : Image :=
  {| allocateGPU := allocateGPU;
     isAllocated := false;
     data_host := None;
     data_device := None;
     noDims := None;
     dataSize := None |}.

(** Pointers without storage behind them: a host-only image has no
    device pointer, in a build without CUDA a dual-domain image has no
    pointer at all, and while the flag is clear neither pointer names a
    live block. *)
Definition no_stale_storage {B : Build} (this : Image) (h : heap) : Prop :=
  (allocateGPU this = false → data_device this = None)
  ∧ (allocateGPU this = true → COMPILE_WITHOUT_CUDA = true →
     data_host this = None ∧ data_device this = None)
  ∧ (isAllocated this = false →
     deref h (data_host this) = None ∧ deref h (data_device this) = None).

(** Both blocks hold the same, determinate bytes. *)
Definition coherent (this : Image) (h : heap) : Prop :=
  ∃ bs : list byte,
    host_bytes this h = Some (Some <$> bs)
    ∧ device_bytes this h = Some (Some <$> bs).

(** A dual-domain 2x1 image of [unsigned char] pixels whose two blocks
    hold the same bytes, and a history of calls used in the examples. *)
Definition settled_heap : heap :=
  {| live :=
       <[1%positive := Block PinnedHost (bytes_of [x07; x09])]>
       (<[2%positive := Block DeviceMem (bytes_of [x07; x09])]> ∅);
     next_block := 3%positive;
     freed := [] |}.

Definition image_s : Image :=
  mkImage true true (Some 1%positive) (Some 2%positive) (Some (mkVector2i 2 1)) (Some 2).

Definition worked_history : list call :=
  [CallAllocate (mkVector2i 2 2); CallClear x2a; CallUpdateDeviceFromHost;
   CallChangeDims (mkVector2i 3 1); CallFree].

(** A call establishes host/device coherence as a postcondition when,
    on every allocated dual-domain buffer, it returns and leaves the host
    block and the device block equal byte for byte. *)
Definition establishes_coherence {T : ElemType} {B : Build} (c : call) : Prop :=
  ∀ this h,
    allocated this h = true → allocateGPU this = true →
    ∃ this' h',
      perform c this h = Done this' h'
      ∧ is_Some (host_bytes this' h')
      ∧ device_bytes this' h' = host_bytes this' h'.

(** [worked_heap] with one more block, the storage of the host-only 2x2
    image [image_h]. *)
Definition mixed_heap : heap :=
  {| live := <[7%positive := Block NewArray (bytes_of [x61; x62; x63; x64])]>
             (live worked_heap);
     next_block := 8%positive;
     freed := [] |}.

Definition image_h : Image :=
  mkImage false true (Some 7%positive) None (Some (mkVector2i 2 2)) (Some 4).

(** A history that ends on an allocated buffer. *)
Definition resize_history : list call :=
  [CallAllocate (mkVector2i 2 2); CallClear x2a; CallUpdateDeviceFromHost;
   CallChangeDims (mkVector2i 3 1)].

(** * Properties *)

(** ** Sizes and byte lists *)

Section Sizes.
Context {T : ElemType}.

Lemma sizeofT_bounds : 0 < sizeofT < 2 ^ 32.
Proof.
  pose proof sizeofT_range as H.
  apply andb_true_iff in H as [H1 H2].
  apply Z.ltb_lt in H1. apply Z.ltb_lt in H2. lia.
Qed.

Lemma size_bytes_exact (n : Z) :
  0 <= n <= INT_MAX → size_bytes n = n * sizeofT.
Proof.
  intros Hn. unfold size_bytes, SIZE_MODULUS.
  pose proof sizeofT_bounds as Hs. unfold INT_MAX in Hn.
  apply Z.mod_small. nia.
Qed.

Lemma size_bytes_fits (n : Z) :
  0 <= n <= INT_MAX → 0 <= size_bytes n <= PTRDIFF_MAX.
Proof.
  intros Hn. rewrite size_bytes_exact by done.
  pose proof sizeofT_bounds as Hs. unfold INT_MAX in Hn. unfold PTRDIFF_MAX.
  nia.
Qed.

Lemma size_bytes_nonneg (n : Z) : 0 <= size_bytes n.
Proof. unfold size_bytes, SIZE_MODULUS. apply Z.mod_pos_bound. lia. Qed.

End Sizes.

Lemma in_int_spec (z : Z) : in_int z = true ↔ INT_MIN <= z <= INT_MAX.
Proof. unfold in_int. rewrite andb_true_iff, !Z.leb_le. tauto. Qed.

Lemma fill_whole (v : byte) (bs : list (option byte)) (n : Z) :
  Z.of_nat (length bs) = n → fill v n bs = replicate (length bs) (Some v).
Proof.
  intros <-. unfold fill. rewrite Nat2Z.id.
  rewrite drop_all. apply app_nil_r.
Qed.

Lemma fill_length (v : byte) (bs : list (option byte)) (n : Z) :
  0 <= n <= Z.of_nat (length bs) → length (fill v n bs) = length bs.
Proof.
  intros Hn. unfold fill.
  rewrite length_app, length_replicate, length_drop. lia.
Qed.

Lemma copy_prefix_whole (src dst : list (option byte)) (n : Z) :
  Z.of_nat (length src) = n → Z.of_nat (length dst) = n →
  copy_prefix n src dst = src.
Proof.
  intros <- Hd. unfold copy_prefix. rewrite Nat2Z.id.
  apply Nat2Z.inj in Hd.
  rewrite firstn_all, drop_ge by lia. apply app_nil_r.
Qed.

Lemma copy_prefix_length (src dst : list (option byte)) (n : Z) :
  0 <= n → n <= Z.of_nat (length src) → n <= Z.of_nat (length dst) →
  length (copy_prefix n src dst) = length dst.
Proof.
  intros H0 Hs Hd. unfold copy_prefix.
  rewrite length_app, length_take, length_drop. lia.
Qed.

Lemma space_eqb_eq (a b : space) : space_eqb a b = true ↔ a = b.
Proof. destruct a, b; simpl; split; congruence. Qed.

Lemma has_block_inv (h : heap) (p : option positive) (s : space) (n : Z) :
  has_block h p s n = true →
  ∃ b bs, p = Some b ∧ live h !! b = Some (Block s bs) ∧ Z.of_nat (length bs) = n.
Proof.
  unfold has_block, deref. destruct p as [b|]; [|done].
  destruct (live h !! b) as [[s' bs]|] eqn:Hb; [|done]. simpl.
  intros H. apply andb_true_iff in H as [Hs Hn].
  apply space_eqb_eq in Hs. apply Z.eqb_eq in Hn. subst. eauto.
Qed.

Lemma has_block_intro (h : heap) (b : positive) (s : space) (bs : list (option byte)) (n : Z) :
  live h !! b = Some (Block s bs) → Z.of_nat (length bs) = n →
  has_block h (Some b) s n = true.
Proof.
  intros Hb Hn. unfold has_block, deref. rewrite Hb. simpl.
  apply andb_true_iff. split; [by apply space_eqb_eq | by apply Z.eqb_eq].
Qed.

Lemma Vector2i_ne_refl (d : Vector2i) : Vector2i_ne d d = false.
Proof. unfold Vector2i_ne. by rewrite !Z.eqb_refl. Qed.

Lemma set_isAllocated_id (this : Image) :
  set_isAllocated (isAllocated this) this = this.
Proof. by destruct this. Qed.

(** ** Stepping through the primitives *)

Lemma bind_done {A C} (m : M A) (k : A → M C) (h h' : heap) (a : A) :
  m h = Done a h' → bind m k h = k a h'.
Proof. intros H. unfold bind. by rewrite H. Qed.

Lemma bind_inv {A C} (m : M A) (k : A → M C) (h h' : heap) (c : C) :
  bind m k h = Done c h' → ∃ a h1, m h = Done a h1 ∧ k a h1 = Done c h'.
Proof. unfold bind. destruct (m h) as [a h1| |]; [eauto|done..]. Qed.

Lemma live_store_eq (b : positive) (blk : block) (h : heap) :
  live (store_block b blk h) !! b = Some blk.
Proof. apply lookup_insert_eq. Qed.

Lemma live_store_ne (b b' : positive) (blk : block) (h : heap) :
  b ≠ b' → live (store_block b blk h) !! b' = live h !! b'.
Proof. intros Hne. by apply lookup_insert_ne. Qed.

Lemma set_mem_done (ok : space → bool) (p : positive) (v : byte) (n : Z)
    (h : heap) (s : space) (bs : list (option byte)) :
  live h !! p = Some (Block s bs) → ok s = true →
  Z.of_nat (length bs) = n →
  set_mem ok p v n h
  = Done tt (store_block p (Block s (replicate (length bs) (Some v))) h).
Proof.
  intros Hp Hok Hn. unfold set_mem. rewrite Hp. simpl. rewrite Hok. simpl.
  destruct (Z.leb_spec n (Z.of_nat (length bs))) as [_|?]; [|lia].
  by rewrite (fill_whole v bs n Hn).
Qed.

Lemma copy_mem_done (dok sok : space → bool) (dst src : positive) (n : Z)
    (h : heap) (sd ss : space) (bd bs : list (option byte)) :
  live h !! dst = Some (Block sd bd) → live h !! src = Some (Block ss bs) →
  dok sd = true → sok ss = true →
  n <= Z.of_nat (length bd) → n <= Z.of_nat (length bs) →
  dst ≠ src →
  copy_mem dok sok dst src n h
  = Done tt (store_block dst (Block sd (copy_prefix n bs bd)) h).
Proof.
  intros Hd Hs Hdok Hsok Hnd Hns Hne. unfold copy_mem. rewrite Hd, Hs. simpl.
  rewrite Hdok, Hsok. simpl.
  destruct (Z.leb_spec n (Z.of_nat (length bd))) as [_|?]; [|lia].
  destruct (Z.leb_spec n (Z.of_nat (length bs))) as [_|?]; [|lia].
  destruct (Pos.eqb_spec dst src) as [?|_]; [done|]. done.
Qed.

Lemma release_done (s : space) (b : positive) (h : heap) (bs : list (option byte)) :
  live h !! b = Some (Block s bs) →
  release s b h
  = Done tt {| live := delete b (live h);
               next_block := next_block h;
               freed := b :: freed h |}.
Proof.
  intros Hb. unfold release. rewrite Hb. simpl.
  by rewrite (proj2 (space_eqb_eq s s) eq_refl).
Qed.

(** ** Storage, seen block by block *)

Section Storage.
Context {T : ElemType} {B : Build}.

Lemma storage_host (this : Image) (h : heap) :
  storage this h = true →
  ∃ n bh hb,
    host_at this h n bh (if allocateGPU this then PinnedHost else NewArray) hb.
Proof.
  unfold storage. destruct (dataSize this) as [n|] eqn:Hn; [|done].
  destruct (allocateGPU this); intros H.
  - apply andb_true_iff in H as [H _]. apply andb_true_iff in H as [_ H].
    apply has_block_inv in H as (bh & hb & Hp & Hb & Hl).
    exists n, bh, hb. by split.
  - apply has_block_inv in H as (bh & hb & Hp & Hb & Hl).
    exists n, bh, hb. by split.
Qed.

Lemma storage_device (this : Image) (h : heap) :
  storage this h = true → allocateGPU this = true →
  ∃ n bd db, device_at this h n bd db.
Proof.
  unfold storage. destruct (dataSize this) as [n|] eqn:Hn; [|done].
  intros H Hg. rewrite Hg in H.
  apply andb_true_iff in H as [H Hd]. apply andb_true_iff in H as [Hc _].
  apply negb_true_iff in Hc.
  apply has_block_inv in Hd as (bd & db & Hp & Hb & Hl).
  exists n, bd, db. by split.
Qed.

Lemma host_device_apart {this that : Image} {h : heap} {n m : Z}
    {bh bd : positive} {s : space} {hb db : list (option byte)} :
  host_at this h n bh s hb → device_at that h m bd db → bh ≠ bd.
Proof.
  intros [_ _ Hb Hs _] [_ _ _ Hd _] ->. rewrite Hd in Hb.
  inversion Hb; subst. done.
Qed.

(** A dual-domain image has storage only in a build with CUDA. *)
Lemma storage_dual_build (this : Image) (h : heap) :
  storage this h = true → allocateGPU this = true →
  COMPILE_WITHOUT_CUDA = false.
Proof.
  intros Hs Hg. destruct (storage_device _ _ Hs Hg) as (n & bd & db & Hd).
  apply Hd.
Qed.

(** Overwriting a block with as many bytes in the same space keeps the
    storage of every image. *)
Lemma has_block_store (h : heap) (p : option positive) (s : space) (n : Z)
    (b : positive) (old new : block) :
  live h !! b = Some old →
  blk_space new = blk_space old →
  length (blk_bytes new) = length (blk_bytes old) →
  has_block (store_block b new h) p s n = has_block h p s n.
Proof.
  intros Hb Hs Hl. unfold has_block, deref. destruct p as [q|]; [|done].
  destruct (decide (b = q)) as [->|Hne].
  - rewrite live_store_eq, Hb. by rewrite Hs, Hl.
  - by rewrite live_store_ne.
Qed.

Lemma storage_store (this : Image) (h : heap) (b : positive) (old new : block) :
  live h !! b = Some old →
  blk_space new = blk_space old →
  length (blk_bytes new) = length (blk_bytes old) →
  storage this (store_block b new h) = storage this h.
Proof.
  intros Hb Hs Hl. unfold storage.
  destruct (dataSize this) as [n|]; [|done].
  by rewrite !(has_block_store h _ _ _ b old new).
Qed.

End Storage.

(** ** One call at a time *)

Section Calls.
Context {T : ElemType} {B : Build}.

(** [Allocate] looks at nothing but the flag once the flag is set. *)
Lemma Allocate_absorbed (d : Vector2i) (this : Image) (h : heap) :
  isAllocated this = true →
  Allocate d this h = Done this h.
Proof.
  intros Halloc. unfold Allocate, bind, ret. rewrite Halloc. simpl.
  by rewrite <- Halloc, set_isAllocated_id.
Qed.

(** [Allocate] always leaves the flag set when it returns. *)
Lemma Allocate_sets_flag (d : Vector2i) (this this' : Image) (h h' : heap) :
  Allocate d this h = Done this' h' → isAllocated this' = true.
Proof.
  unfold Allocate, bind, ret. intros H.
  destruct (if negb (isAllocated this) then _ else _) as [a h1| |]; [|done..].
  by inversion H.
Qed.

(** Two calls in a row: the second one is absorbed, whatever either call
    asks for and whatever the first one does. *)
Lemma Allocate_twice (d1 d2 : Vector2i) (this : Image) (h : heap) :
  (let* this1 := Allocate d1 this in Allocate d2 this1) h = Allocate d1 this h.
Proof.
  unfold bind at 1. destruct (Allocate d1 this h) as [this1 h1| |] eqn:H1; [|done..].
  apply Allocate_absorbed. by eapply Allocate_sets_flag.
Qed.

(** [ChangeDims] with the current dimensions, flag set: nothing happens. *)
Lemma ChangeDims_skip (d : Vector2i) (this : Image) (h : heap) :
  isAllocated this = true →
  noDims this = Some d →
  ChangeDims d this h = Done this h.
Proof.
  intros Halloc Hd. unfold ChangeDims, bind, read. rewrite Hd. unfold ret.
  by rewrite Vector2i_ne_refl, Halloc.
Qed.

(** [Allocate] on a buffer whose flag is clear, with an element count that
    [int] can hold: the storage is there afterwards, indeterminate. *)
Lemma Allocate_fresh (d : Vector2i) (this : Image) (h : heap) :
  isAllocated this = false →
  0 <= x d * y d <= INT_MAX →
  (allocateGPU this = true → COMPILE_WITHOUT_CUDA = false) →
  ∃ this' h',
    Allocate d this h = Done this' h'
    ∧ allocated this' h' = true
    ∧ allocateGPU this' = allocateGPU this
    ∧ noDims this' = Some d
    ∧ dataSize this' = Some (x d * y d)
    ∧ host_bytes this' h'
      = Some (replicate (Z.to_nat (size_bytes (x d * y d))) None)
    ∧ freed h' = freed h.
Proof.
  intros Hflag Hn Hcuda.
  pose proof (size_bytes_fits _ Hn) as Hfit.
  pose proof (size_bytes_exact _ Hn) as Hex.
  assert (Hint : in_int (x d * y d) = true).
  { apply in_int_spec. unfold INT_MIN, INT_MAX in *. lia. }
  unfold Allocate, bind at 1. rewrite Hflag. simpl negb. cbv iota.
  unfold int_mul. rewrite Hint. unfold bind at 1, ret at 1.
  destruct this as [gpu fl ph pd nd ds]. simpl in *. subst fl.
  destruct gpu.
  - rewrite (Hcuda eq_refl).
    unfold cudaMallocHost, cudaMalloc, bind, alloc, ret.
    destruct (Z.leb_spec (size_bytes (x d * y d)) PTRDIFF_MAX) as [_|?]; [|lia].
    eexists _, _. split; [reflexivity|].
    unfold allocated, storage, host_bytes, host_block, deref. simpl.
    rewrite (Hcuda eq_refl). simpl.
    assert (Hne : next_block h ≠ Pos.succ (next_block h)) by lia.
    rewrite !(has_block_intro _ _ _ (replicate (Z.to_nat (size_bytes (x d * y d))) None));
      simpl; rewrite ?lookup_insert_eq, ?lookup_insert_ne, ?lookup_insert_eq by done;
      rewrite ?length_replicate; try done; lia.
  - unfold new_array, bind, alloc, ret.
    destruct (Z.ltb_spec (x d * y d) 0) as [?|_]; [lia|].
    eexists _, _. split; [reflexivity|].
    unfold allocated, storage, host_bytes, host_block, deref. simpl.
    rewrite <- Hex.
    rewrite (has_block_intro _ _ _ (replicate (Z.to_nat (size_bytes (x d * y d))) None));
      simpl; rewrite ?lookup_insert_eq; rewrite ?length_replicate; try done; lia.
Qed.

(** [Clear] on a host-only image. *)
Lemma Clear_host_only (v : byte) (this : Image) (h : heap) (n : Z)
    (bh : positive) (s : space) (hb : list (option byte)) :
  host_at this h n bh s hb →
  allocateGPU this = false →
  Clear v this h
  = Done tt (store_block bh (Block s (replicate (length hb) (Some v))) h).
Proof.
  intros [Hn Hp Hb Hs Hl] Hg. unfold Clear. rewrite Hp, Hn, Hg. simpl read.
  erewrite bind_done; [|erewrite bind_done by reflexivity;
                         erewrite bind_done by reflexivity;
                         by apply (set_mem_done on_host bh v _ h s hb)].
  by destruct COMPILE_WITHOUT_CUDA.
Qed.

(** [Clear] on a dual-domain image: the host fill, then the device
    fill. *)
Lemma Clear_dual (v : byte) (this : Image) (h : heap) (n : Z)
    (bh bd : positive) (s : space) (hb db : list (option byte)) :
  host_at this h n bh s hb →
  device_at this h n bd db →
  allocateGPU this = true →
  Clear v this h
  = Done tt (store_block bd (Block DeviceMem (replicate (length db) (Some v)))
               (store_block bh (Block s (replicate (length hb) (Some v))) h)).
Proof.
  intros Hh Hd Hg. pose proof (host_device_apart Hh Hd) as Hne.
  destruct Hh as [Hn Hp Hb Hs Hl]. destruct Hd as [Hc _ Hpd Hbd Hld].
  unfold Clear. rewrite Hp, Hpd, Hn, Hg, Hc. simpl read.
  erewrite bind_done; [|erewrite bind_done by reflexivity;
                         erewrite bind_done by reflexivity;
                         by apply (set_mem_done on_host bh v _ h s hb)].
  erewrite bind_done by reflexivity. erewrite bind_done by reflexivity.
  apply (set_mem_done on_device bd v _ _ DeviceMem db); [|done..].
  by rewrite live_store_ne.
Qed.

(** The caller fills the whole host block. *)
Lemma write_host_done (bs : list byte) (this : Image) (h : heap) (n : Z)
    (bh : positive) (s : space) (hb : list (option byte)) :
  host_at this h n bh s hb →
  Z.of_nat (length bs) = size_bytes n →
  write_host bs this h = Done tt (store_block bh (Block s (Some <$> bs)) h).
Proof.
  intros [Hn Hp Hb Hs Hl] Hbs. unfold write_host, GetData. rewrite Hp. simpl read.
  erewrite bind_done by reflexivity. rewrite Hb. simpl. rewrite Hs. simpl.
  destruct (Z.leb_spec (Z.of_nat (length bs)) (Z.of_nat (length hb))) as [_|?]; [|lia].
  rewrite copy_prefix_whole; [done| |lia].
  by rewrite length_fmap.
Qed.

(** The two transfers of a dual-domain image. *)
Lemma UpdateDeviceFromHost_done (this : Image) (h : heap) (n : Z)
    (bh bd : positive) (s : space) (hb db : list (option byte)) :
  host_at this h n bh s hb →
  device_at this h n bd db →
  allocateGPU this = true →
  UpdateDeviceFromHost this h = Done tt (store_block bd (Block DeviceMem hb) h).
Proof.
  intros Hh Hd Hg. pose proof (host_device_apart Hh Hd) as Hne.
  destruct Hh as [Hn Hp Hb Hs Hl]. destruct Hd as [Hc _ Hpd Hbd Hld].
  unfold UpdateDeviceFromHost. rewrite Hc, Hg, Hp, Hpd, Hn. simpl read.
  do 3 erewrite bind_done by reflexivity. unfold cudaMemcpy.
  rewrite (copy_mem_done on_device on_host bd bh _ h DeviceMem s db hb);
    try done; try lia.
  by rewrite copy_prefix_whole.
Qed.

Lemma UpdateHostFromDevice_done (this : Image) (h : heap) (n : Z)
    (bh bd : positive) (s : space) (hb db : list (option byte)) :
  host_at this h n bh s hb →
  device_at this h n bd db →
  allocateGPU this = true →
  UpdateHostFromDevice this h = Done tt (store_block bh (Block s db) h).
Proof.
  intros Hh Hd Hg. pose proof (host_device_apart Hh Hd) as Hne.
  destruct Hh as [Hn Hp Hb Hs Hl]. destruct Hd as [Hc _ Hpd Hbd Hld].
  unfold UpdateHostFromDevice. rewrite Hc, Hg, Hp, Hpd, Hn. simpl read.
  do 3 erewrite bind_done by reflexivity. unfold cudaMemcpy.
  rewrite (copy_mem_done on_host on_device bh bd _ h s DeviceMem hb db);
    try done; try lia.
  by rewrite copy_prefix_whole.
Qed.

(** Without CUDA, or on a host-only image, the transfers do nothing. *)
Lemma Update_without_device (this : Image) (h : heap) :
  COMPILE_WITHOUT_CUDA = true ∨ allocateGPU this = false →
  UpdateDeviceFromHost this h = Done tt h
  ∧ UpdateHostFromDevice this h = Done tt h.
Proof.
  unfold UpdateDeviceFromHost, UpdateHostFromDevice.
  intros [-> | ->]; [done|]. by destruct COMPILE_WITHOUT_CUDA.
Qed.

(** [Free] in each of its four cases. *)
Lemma Free_unallocated (this : Image) (h : heap) :
  isAllocated this = false → Free this h = Done this h.
Proof.
  intros Hf. unfold Free. rewrite Hf. erewrite bind_done by reflexivity.
  unfold ret. by rewrite <- Hf, set_isAllocated_id.
Qed.

Lemma Free_without_cuda (this : Image) (h : heap) :
  isAllocated this = true → allocateGPU this = true →
  COMPILE_WITHOUT_CUDA = true →
  Free this h = Done (set_isAllocated false this) h.
Proof.
  intros Hf Hg Hc. unfold Free. rewrite Hf, Hg, Hc.
  by erewrite bind_done by reflexivity.
Qed.

Lemma Free_host_only (this : Image) (h : heap) (n : Z)
    (bh : positive) (hb : list (option byte)) :
  isAllocated this = true → allocateGPU this = false →
  host_at this h n bh NewArray hb →
  Free this h
  = Done (set_isAllocated false this)
         {| live := delete bh (live h);
            next_block := next_block h;
            freed := bh :: freed h |}.
Proof.
  intros Hf Hg [Hn Hp Hb Hs Hl]. unfold Free. rewrite Hf, Hg, Hp. simpl read.
  erewrite bind_done; [done|]. erewrite bind_done by reflexivity.
  by eapply release_done.
Qed.

Lemma Free_dual (this : Image) (h : heap) (n : Z)
    (bh bd : positive) (hb db : list (option byte)) :
  isAllocated this = true → allocateGPU this = true →
  host_at this h n bh PinnedHost hb →
  device_at this h n bd db →
  Free this h
  = Done (set_isAllocated false this)
         {| live := delete bh (delete bd (live h));
            next_block := next_block h;
            freed := bh :: bd :: freed h |}.
Proof.
  intros Hf Hg Hh Hd. pose proof (host_device_apart Hh Hd) as Hne.
  destruct Hh as [Hn Hp Hb Hs Hl]. destruct Hd as [Hc _ Hpd Hbd Hld].
  unfold Free. rewrite Hf, Hg, Hc, Hp, Hpd. simpl read.
  erewrite bind_done; [done|].
  erewrite bind_done.
  2:{ erewrite bind_done by reflexivity. by eapply release_done. }
  erewrite bind_done by reflexivity.
  eapply release_done. simpl. by rewrite lookup_delete_ne.
Qed.

(** The host copy of [SetFrom], from a source of [n] elements into a
    destination that holds at least as many bytes. *)
Lemma SetFrom_host_part (source this : Image) (h : heap) (m n : Z)
    (bh bs : positive) (s ss : space) (hb sb : list (option byte)) :
  host_at this h m bh s hb →
  host_at source h n bs ss sb →
  size_bytes n <= size_bytes m →
  bh ≠ bs →
  SetFrom source true false this h
  = Done tt (store_block bh (Block s (copy_prefix (size_bytes n) sb hb)) h).
Proof.
  intros [Hm Hp Hb Hs Hl] [Hn Hps Hbs Hss Hls] Hle Hne.
  unfold SetFrom. rewrite Hp, Hps, Hn. simpl read.
  erewrite bind_done.
  2:{ do 3 erewrite bind_done by reflexivity.
      apply (copy_mem_done on_host on_host bh bs _ h s ss hb sb); try done; lia. }
  by destruct COMPILE_WITHOUT_CUDA.
Qed.

(** The device copy of [SetFrom]. *)
Lemma SetFrom_device_part (source this : Image) (h : heap) (m n : Z)
    (bd bs : positive) (db sb : list (option byte)) :
  device_at this h m bd db →
  device_at source h n bs sb →
  size_bytes n <= size_bytes m →
  bd ≠ bs →
  SetFrom source false true this h
  = Done tt (store_block bd (Block DeviceMem (copy_prefix (size_bytes n) sb db)) h).
Proof.
  intros [Hc Hm Hp Hb Hl] [_ Hn Hps Hbs Hls] Hle Hne.
  unfold SetFrom. rewrite Hp, Hps, Hn, Hc. simpl read.
  erewrite bind_done by reflexivity.
  do 3 erewrite bind_done by reflexivity. unfold cudaMemcpy.
  apply (copy_mem_done on_device on_device bd bs _ h DeviceMem DeviceMem db sb);
    try done; lia.
Qed.

(** Both flags: the host copy, then the device copy in the heap the host
    copy has left. *)
Lemma SetFrom_sequence (source this : Image) (h h1 : heap) :
  SetFrom source true false this h = Done tt h1 →
  SetFrom source true true this h = SetFrom source false true this h1.
Proof.
  unfold SetFrom.
  match goal with
  | |- (?m ;;; _) h = _ → _ => destruct (m h) as [[] h'| |] eqn:E
  end.
  - rewrite !(bind_done _ _ _ _ _ E). erewrite (bind_done (ret tt)) by reflexivity.
    destruct COMPILE_WITHOUT_CUDA; intros H; by inversion H.
  - unfold bind at 1. by rewrite E.
  - unfold bind at 1. by rewrite E.
Qed.

(** *** Views under a store *)

Lemma host_at_bytes {this : Image} {h : heap} {n : Z}
    {bh : positive} {s : space} {hb : list (option byte)} :
  host_at this h n bh s hb →
  host_block this h = Some (Block s hb) ∧ host_bytes this h = Some hb.
Proof.
  intros [_ Hp Hb _ _]. unfold host_bytes, host_block, GetData, deref.
  by rewrite Hp, Hb.
Qed.

Lemma device_at_bytes {this : Image} {h : heap} {n : Z}
    {bd : positive} {db : list (option byte)} :
  device_at this h n bd db →
  device_block this h = Some (Block DeviceMem db) ∧ device_bytes this h = Some db.
Proof.
  intros [_ _ Hp Hb _]. unfold device_bytes, device_block, GetData, deref.
  by rewrite Hp, Hb.
Qed.

Lemma host_at_store_same {this : Image} {h : heap} {n : Z}
    {bh : positive} {s : space} {hb : list (option byte)}
    (new : list (option byte)) :
  host_at this h n bh s hb → length new = length hb →
  host_at this (store_block bh (Block s new) h) n bh s new.
Proof.
  intros [Hn Hp Hb Hs Hl] Hlen. split; try done.
  - apply live_store_eq.
  - by rewrite Hlen.
Qed.

Lemma host_at_store_other {this : Image} {h : heap} {n : Z}
    {bh : positive} {s : space} {hb : list (option byte)}
    (b : positive) (blk : block) :
  host_at this h n bh s hb → b ≠ bh →
  host_at this (store_block b blk h) n bh s hb.
Proof.
  intros [Hn Hp Hb Hs Hl] Hne. split; try done. by rewrite live_store_ne.
Qed.

Lemma device_at_store_same {this : Image} {h : heap} {n : Z}
    {bd : positive} {db : list (option byte)}
    (new : list (option byte)) :
  device_at this h n bd db → length new = length db →
  device_at this (store_block bd (Block DeviceMem new) h) n bd new.
Proof.
  intros [Hc Hn Hp Hb Hl] Hlen. split; try done.
  - apply live_store_eq.
  - by rewrite Hlen.
Qed.

Lemma device_at_store_other {this : Image} {h : heap} {n : Z}
    {bd : positive} {db : list (option byte)}
    (b : positive) (blk : block) :
  device_at this h n bd db → b ≠ bd →
  device_at this (store_block b blk h) n bd db.
Proof.
  intros [Hc Hn Hp Hb Hl] Hne. split; try done. by rewrite live_store_ne.
Qed.

(** The storage of a dual-domain image, both blocks at once. *)
Lemma storage_dual (this : Image) (h : heap) (n : Z) :
  storage this h = true → allocateGPU this = true → dataSize this = Some n →
  ∃ bh bd hb db,
    host_at this h n bh PinnedHost hb ∧ device_at this h n bd db ∧ bh ≠ bd.
Proof.
  intros Hs Hg Hn.
  destruct (storage_host _ _ Hs) as (n1 & bh & hb & Hh).
  destruct (storage_device _ _ Hs Hg) as (n2 & bd & db & Hd).
  rewrite Hg in Hh.
  assert (n1 = n) as -> by (destruct Hh; congruence).
  assert (n2 = n) as -> by (destruct Hd; congruence).
  exists bh, bd, hb, db. split_and!; try done.
  exact (host_device_apart Hh Hd).
Qed.

Lemma allocated_storage (this : Image) (h : heap) :
  allocated this h = true → isAllocated this = true ∧ storage this h = true.
Proof. unfold allocated. by rewrite andb_true_iff. Qed.

Lemma allocated_wf (this : Image) (h : heap) :
  allocated this h = true → wf this h = true.
Proof.
  intros [Hf Hs]%allocated_storage. unfold wf. rewrite Hs.
  by rewrite orb_true_r.
Qed.

Lemma unallocated_wf (this : Image) (h : heap) :
  isAllocated this = false → wf this h = true.
Proof. intros Hf. unfold wf. by rewrite Hf. Qed.

(** [Clear] on a buffer that has its storage. *)
Lemma Clear_storage (v : byte) (this : Image) (h : heap) (n : Z) :
  storage this h = true →
  dataSize this = Some n →
  ∃ h',
    Clear v this h = Done tt h'
    ∧ storage this h' = true
    ∧ host_bytes this h' = Some (replicate (Z.to_nat (size_bytes n)) (Some v))
    ∧ (allocateGPU this = true →
       device_bytes this h' = Some (replicate (Z.to_nat (size_bytes n)) (Some v))).
Proof.
  intros Hs Hn. destruct (allocateGPU this) eqn:Hg.
  - destruct (storage_dual _ _ _ Hs Hg Hn) as (bh & bd & hb & db & Hh & Hd & Hne).
    assert (Hlh : length hb = Z.to_nat (size_bytes n)) by (destruct Hh; lia).
    assert (Hld : length db = Z.to_nat (size_bytes n)) by (destruct Hd; lia).
    pose proof (host_at_store_same (replicate (length hb) (Some v)) Hh
                  (length_replicate _ _)) as Hh1.
    pose proof (device_at_store_other bh
                  (Block PinnedHost (replicate (length hb) (Some v))) Hd Hne) as Hd1.
    pose proof (device_at_store_same (replicate (length db) (Some v)) Hd1
                  (length_replicate _ _)) as Hd2.
    pose proof (host_at_store_other bd
                  (Block DeviceMem (replicate (length db) (Some v))) Hh1
                  (not_eq_sym Hne)) as Hh2.
    eexists. split_and!.
    + by eapply Clear_dual.
    + erewrite storage_store; [|by apply Hd1|done|by simpl; rewrite length_replicate].
      erewrite storage_store; [done|by apply Hh|done|by simpl; rewrite length_replicate].
    + rewrite <- Hlh. apply (host_at_bytes Hh2).
    + intros _. rewrite <- Hld. apply (device_at_bytes Hd2).
  - destruct (storage_host _ _ Hs) as (n1 & bh & hb & Hh). rewrite Hg in Hh.
    assert (n1 = n) as -> by (destruct Hh; congruence).
    assert (Hlh : length hb = Z.to_nat (size_bytes n)) by (destruct Hh; lia).
    eexists. split_and!.
    + by eapply Clear_host_only.
    + erewrite storage_store; [done|by apply Hh|done|by simpl; rewrite length_replicate].
    + rewrite <- Hlh.
      apply (host_at_bytes (host_at_store_same (replicate (length hb) (Some v)) Hh
                              (length_replicate _ _))).
    + done.
Qed.

(** [Free] on an allocated buffer releases its storage and clears the
    flag. *)
Lemma Free_allocated (this : Image) (h : heap) :
  allocated this h = true →
  ∃ h', Free this h = Done (set_isAllocated false this) h'.
Proof.
  intros [Hf Hs]%allocated_storage.
  destruct (storage_host _ _ Hs) as (n & bh & hb & Hh).
  destruct (allocateGPU this) eqn:Hg.
  - destruct (storage_dual _ _ n Hs Hg) as (bh' & bd & hb' & db & Hh' & Hd & _);
      [by destruct Hh|].
    eexists. by eapply Free_dual.
  - eexists. by eapply Free_host_only.
Qed.

(** [ChangeDims] to other dimensions: the old storage is released and
    storage of the new size, with indeterminate content, takes its
    place. *)
Lemma ChangeDims_resize (d cur : Vector2i) (this : Image) (h : heap) :
  allocated this h = true →
  noDims this = Some cur →
  Vector2i_ne d cur = true →
  0 <= x d * y d <= INT_MAX →
  ∃ this' h',
    ChangeDims d this h = Done this' h'
    ∧ allocated this' h' = true
    ∧ allocateGPU this' = allocateGPU this
    ∧ noDims this' = Some d
    ∧ dataSize this' = Some (x d * y d)
    ∧ host_bytes this' h'
      = Some (replicate (Z.to_nat (size_bytes (x d * y d))) None).
Proof.
  intros Ha Hcur Hne Hn.
  destruct (Free_allocated _ _ Ha) as (h1 & HF).
  apply allocated_storage in Ha as [Hf Hs].
  destruct (Allocate_fresh d (set_isAllocated false this) h1 eq_refl Hn)
    as (this' & h' & HA & Hal & Hg & Hd & Hds & Hb & _).
  { simpl. intros Hg. by eapply storage_dual_build. }
  exists this', h'. split_and!; try done.
  unfold ChangeDims. rewrite Hcur. simpl read. erewrite bind_done by reflexivity.
  rewrite Hne. simpl. by erewrite bind_done by exact HF.
Qed.

(** *** [dataSize] against [noDims] *)

Lemma Free_members (this this' : Image) (h h' : heap) :
  Free this h = Done this' h' → this' = set_isAllocated false this.
Proof.
  unfold Free. unfold bind at 1.
  destruct (if isAllocated this then _ else _) as [[] h1| |]; [|done..].
  unfold ret. by inversion 1.
Qed.

Lemma Allocate_dims_agree (d : Vector2i) (this this' : Image) (h h' : heap) :
  Allocate d this h = Done this' h' →
  isAllocated this = false ∨ dims_agree this = true →
  dims_agree this' = true.
Proof.
  unfold Allocate. intros (a & h1 & Hin & Hret)%bind_inv Hinv.
  unfold ret in Hret. inversion Hret; subst. clear Hret.
  assert (Hset : ∀ a, dims_agree (set_isAllocated true a) = dims_agree a) by done.
  rewrite Hset. clear Hset.
  destruct (isAllocated this) eqn:Hf; simpl in Hin.
  - unfold ret in Hin. inversion Hin; subst. by destruct Hinv.
  - apply bind_inv in Hin as (n & h2 & Hmul & Hrest).
    unfold int_mul in Hmul. destruct (in_int (x d * y d)); [|done].
    unfold ret in Hmul. inversion Hmul; subst. clear Hmul.
    assert (Hok : ∀ a, noDims a = Some d → dataSize a = Some (x d * y d) →
                       dims_agree a = true).
    { intros a' Ha1 Ha2. unfold dims_agree. rewrite Ha1, Ha2. apply Z.eqb_refl. }
    destruct (allocateGPU this); [destruct COMPILE_WITHOUT_CUDA|].
    + unfold ret in Hrest. inversion Hrest. by apply Hok.
    + apply bind_inv in Hrest as (ph & h3 & _ & Hrest).
      apply bind_inv in Hrest as (pd & h4 & _ & Hrest).
      unfold ret in Hrest. inversion Hrest. by apply Hok.
    + apply bind_inv in Hrest as (ph & h3 & _ & Hrest).
      unfold ret in Hrest. inversion Hrest. by apply Hok.
Qed.

Lemma ChangeDims_dims_agree (d : Vector2i) (this this' : Image) (h h' : heap) :
  ChangeDims d this h = Done this' h' →
  isAllocated this = false ∨ dims_agree this = true →
  dims_agree this' = true.
Proof.
  unfold ChangeDims. destruct (noDims this) as [cur|] eqn:Hcur; [|done].
  simpl read. erewrite bind_done by reflexivity.
  destruct (Vector2i_ne d cur || negb (isAllocated this)) eqn:Hc.
  - unfold bind. destruct (Free this h) as [this1 h1| |] eqn:HF; [|done..].
    apply Free_members in HF as ->. intros HA _.
    eapply Allocate_dims_agree; [exact HA|by left].
  - unfold ret. inversion 1; subst. intros [Hf|?]; [|done].
    apply orb_false_iff in Hc as [_ Hc]. by rewrite Hf in Hc.
Qed.

End Calls.

(** ** What histories of calls keep *)

Section HistoryInvariant.
Context {T : ElemType} {B : Build}.

Lemma bind_ret_inv {A} (m : M A) (this this' : Image) (h h' : heap) :
  (m;;; ret this) h = Done this' h' → this' = this.
Proof.
  unfold bind, ret. destruct (m h); [|done..]. by inversion 1.
Qed.

Lemma perform_dims_inv (c : call) (this this' : Image) (h h' : heap) :
  perform c this h = Done this' h' → dims_inv this → dims_inv this'.
Proof.
  unfold dims_inv. destruct c; simpl; intros H Hinv.
  - left. eapply Allocate_dims_agree; [exact H|tauto].
  - by apply bind_ret_inv in H as ->.
  - left. eapply ChangeDims_dims_agree; [exact H|tauto].
  - by apply bind_ret_inv in H as ->.
  - by apply bind_ret_inv in H as ->.
  - by apply bind_ret_inv in H as ->.
  - apply Free_members in H as ->. by right.
Qed.

Lemma perform_all_dims_inv (cs : list call) (this this' : Image) (h h' : heap) :
  perform_all cs this h = Done this' h' → dims_inv this → dims_inv this'.
Proof.
  revert this h. induction cs as [|c cs IH]; intros this h; simpl.
  - unfold ret. by inversion 1.
  - unfold bind. destruct (perform c this h) as [this1 h1| |] eqn:Hc; [|done..].
    intros H Hinv. eapply IH; [exact H|]. by eapply perform_dims_inv.
Qed.

(** In every state that a history of calls reaches from either
    constructor, an image whose flag is set has [dataSize] equal to the
    product of its dimensions. *)
Lemma reachable_dims_agree (cs : list call) (g : bool)
    (this : Image) (h h' : heap) :
  perform_all cs (Image_ctor g) h = Done this h' →
  isAllocated this = true →
  dims_agree this = true.
Proof.
  intros H Hf. apply perform_all_dims_inv in H as [?|Hu]; [done| |by right].
  by rewrite Hf in Hu.
Qed.

End HistoryInvariant.

(** ** The class invariant *)

Lemma read_inv {A} (v : option A) (a : A) (h h' : heap) :
  read v h = Done a h' → v = Some a ∧ h' = h.
Proof. destruct v; [|done]. unfold read, ret. by inversion 1. Qed.

Lemma set_mem_inv (ok : space → bool) (p : positive) (v : byte) (n : Z) (h h' : heap) :
  set_mem ok p v n h = Done tt h' →
  ∃ blk, live h !! p = Some blk
         ∧ n <= Z.of_nat (length (blk_bytes blk))
         ∧ h' = store_block p (Block (blk_space blk) (fill v n (blk_bytes blk))) h.
Proof.
  unfold set_mem. destruct (live h !! p) as [blk|]; [|done].
  destruct (ok (blk_space blk)); [|done]. simpl.
  destruct (Z.leb_spec n (Z.of_nat (length (blk_bytes blk)))); [|done].
  inversion 1. eauto.
Qed.

Lemma copy_mem_inv (dok sok : space → bool) (dst src : positive) (n : Z) (h h' : heap) :
  copy_mem dok sok dst src n h = Done tt h' →
  ∃ d s, live h !! dst = Some d
         ∧ n <= Z.of_nat (length (blk_bytes d))
         ∧ n <= Z.of_nat (length (blk_bytes s))
         ∧ h' = store_block dst
                  (Block (blk_space d) (copy_prefix n (blk_bytes s) (blk_bytes d))) h.
Proof.
  unfold copy_mem. destruct (live h !! dst) as [d|]; [|done].
  destruct (live h !! src) as [s|]; [|done].
  destruct (dok (blk_space d) && sok (blk_space s)); [|done]. simpl.
  destruct (Z.leb_spec n (Z.of_nat (length (blk_bytes d)))); [|done].
  destruct (Z.leb_spec n (Z.of_nat (length (blk_bytes s)))); [|done]. simpl.
  destruct (negb (dst =? src)%positive || (n =? 0)); [|done].
  inversion 1. eauto 10.
Qed.

Section Invariant.
Context {T : ElemType} {B : Build}.

(** Fills and copies overwrite a block in place: no image gains or loses
    storage by them. *)
Lemma set_mem_storage (ok : space → bool) (p : positive) (v : byte) (n : Z)
    (h h' : heap) (img : Image) :
  set_mem ok p v n h = Done tt h' → 0 <= n →
  storage img h' = storage img h.
Proof.
  intros (blk & Hb & Hn & ->)%set_mem_inv H0.
  eapply storage_store; [exact Hb|done|]. simpl. by apply fill_length.
Qed.

Lemma copy_mem_storage (dok sok : space → bool) (dst src : positive) (n : Z)
    (h h' : heap) (img : Image) :
  copy_mem dok sok dst src n h = Done tt h' → 0 <= n →
  storage img h' = storage img h.
Proof.
  intros (d & s & Hd & Hnd & Hns & ->)%copy_mem_inv H0.
  eapply storage_store; [exact Hd|done|]. simpl. by apply copy_prefix_length.
Qed.

Lemma Clear_storage_kept (v : byte) (this img : Image) (h h' : heap) :
  Clear v this h = Done tt h' → storage img h' = storage img h.
Proof.
  unfold Clear. intros ([] & h1 & Hhost & Hdev)%bind_inv.
  apply bind_inv in Hhost as (p & ? & [_ ->]%read_inv & Hhost).
  apply bind_inv in Hhost as (n & ? & [_ ->]%read_inv & Hhost).
  apply (set_mem_storage _ _ _ _ _ _ img) in Hhost; [|apply size_bytes_nonneg].
  rewrite <- Hhost.
  destruct COMPILE_WITHOUT_CUDA; [by inversion Hdev|].
  destruct (allocateGPU this); [|by inversion Hdev].
  apply bind_inv in Hdev as (pd & ? & [_ ->]%read_inv & Hdev).
  apply bind_inv in Hdev as (nd & ? & [_ ->]%read_inv & Hdev).
  apply (set_mem_storage _ _ _ _ _ _ img) in Hdev; [done|apply size_bytes_nonneg].
Qed.

Lemma cudaMemcpy_storage (dst src : positive) (n : Z) (kind : cudaMemcpyKind)
    (h h' : heap) (img : Image) :
  cudaMemcpy dst src n kind h = Done tt h' → 0 <= n →
  storage img h' = storage img h.
Proof. destruct kind; apply copy_mem_storage. Qed.

Lemma UpdateDeviceFromHost_storage_kept (this img : Image) (h h' : heap) :
  UpdateDeviceFromHost this h = Done tt h' → storage img h' = storage img h.
Proof.
  unfold UpdateDeviceFromHost.
  destruct COMPILE_WITHOUT_CUDA; [by inversion 1|].
  destruct (allocateGPU this); [|by inversion 1].
  intros (pd & ? & [_ ->]%read_inv & H)%bind_inv.
  apply bind_inv in H as (ph & ? & [_ ->]%read_inv & H).
  apply bind_inv in H as (n & ? & [_ ->]%read_inv & H).
  eapply cudaMemcpy_storage; [exact H|apply size_bytes_nonneg].
Qed.

Lemma UpdateHostFromDevice_storage_kept (this img : Image) (h h' : heap) :
  UpdateHostFromDevice this h = Done tt h' → storage img h' = storage img h.
Proof.
  unfold UpdateHostFromDevice.
  destruct COMPILE_WITHOUT_CUDA; [by inversion 1|].
  destruct (allocateGPU this); [|by inversion 1].
  intros (ph & ? & [_ ->]%read_inv & H)%bind_inv.
  apply bind_inv in H as (pd & ? & [_ ->]%read_inv & H).
  apply bind_inv in H as (n & ? & [_ ->]%read_inv & H).
  eapply cudaMemcpy_storage; [exact H|apply size_bytes_nonneg].
Qed.

Lemma SetFrom_storage_kept (source this img : Image) (copyHost copyDevice : bool)
    (h h' : heap) :
  SetFrom source copyHost copyDevice this h = Done tt h' →
  storage img h' = storage img h.
Proof.
  unfold SetFrom. intros ([] & h1 & Hhost & Hdev)%bind_inv.
  assert (H1 : storage img h1 = storage img h).
  { destruct copyHost; [|by inversion Hhost].
    apply bind_inv in Hhost as (dst & ? & [_ ->]%read_inv & Hhost).
    apply bind_inv in Hhost as (src & ? & [_ ->]%read_inv & Hhost).
    apply bind_inv in Hhost as (n & ? & [_ ->]%read_inv & Hhost).
    eapply copy_mem_storage; [exact Hhost|apply size_bytes_nonneg]. }
  rewrite <- H1.
  destruct COMPILE_WITHOUT_CUDA; [by inversion Hdev|].
  destruct copyDevice; [|by inversion Hdev].
  apply bind_inv in Hdev as (dst & ? & [_ ->]%read_inv & Hdev).
  apply bind_inv in Hdev as (src & ? & [_ ->]%read_inv & Hdev).
  apply bind_inv in Hdev as (n & ? & [_ ->]%read_inv & Hdev).
  eapply cudaMemcpy_storage; [exact Hdev|apply size_bytes_nonneg].
Qed.

(** Whenever [Allocate] returns from a buffer whose flag was clear, the
    storage it promises is there. *)
Lemma Allocate_done_wf (d : Vector2i) (this this' : Image) (h h' : heap) :
  Allocate d this h = Done this' h' →
  isAllocated this = false →
  wf this' h' = true.
Proof.
  unfold Allocate. intros (a & h1 & Hin & Hret)%bind_inv Hf.
  unfold ret in Hret. inversion Hret; subst. clear Hret.
  rewrite Hf in Hin. simpl in Hin.
  apply bind_inv in Hin as (n & h2 & Hmul & Hrest).
  unfold int_mul in Hmul. destruct (in_int (x d * y d)) eqn:Hint; [|done].
  unfold ret in Hmul. inversion Hmul; subst. clear Hmul.
  apply in_int_spec in Hint.
  pose proof (size_bytes_nonneg (x d * y d)) as Hnn.
  destruct (allocateGPU this) eqn:Hg.
  - destruct COMPILE_WITHOUT_CUDA eqn:Hc.
    + unfold ret in Hrest. inversion Hrest; subst.
      unfold wf. simpl. by rewrite Hg, Hc.
    + apply bind_inv in Hrest as (ph & h3 & Hph & Hrest).
      apply bind_inv in Hrest as (pd & h4 & Hpd & Hrest).
      unfold ret in Hrest. inversion Hrest; subst. clear Hrest.
      unfold cudaMallocHost, cudaMalloc in *.
      destruct (size_bytes (x d * y d) <=? PTRDIFF_MAX); [|done].
      unfold alloc in *. inversion Hph; subst. inversion Hpd; subst.
      unfold wf, storage. simpl. rewrite Hg, Hc. simpl.
      rewrite !(has_block_intro _ _ _
                  (replicate (Z.to_nat (size_bytes (x d * y d))) None));
        simpl; rewrite ?lookup_insert_eq, ?lookup_insert_ne, ?lookup_insert_eq by lia;
        rewrite ?length_replicate; try done; lia.
  - apply bind_inv in Hrest as (p & h3 & Hp & Hrest).
    unfold ret in Hrest. inversion Hrest; subst. clear Hrest.
    unfold new_array in Hp.
    destruct (Z.ltb_spec (x d * y d) 0) as [|Hn0]; [done|].
    unfold alloc in Hp. inversion Hp; subst.
    unfold wf, storage. simpl. rewrite Hg. simpl.
    rewrite (has_block_intro _ _ _ (replicate (Z.to_nat (x d * y d * sizeofT)) None));
      simpl; rewrite ?lookup_insert_eq; try done.
    rewrite length_replicate, size_bytes_exact by lia.
    pose proof sizeofT_bounds. nia.
Qed.

(** Every call keeps the invariant. *)
Lemma perform_wf (c : call) (this this' : Image) (h h' : heap) :
  perform c this h = Done this' h' → wf this h = true → wf this' h' = true.
Proof.
  assert (Hkeep : ∀ h1, storage this h1 = storage this h →
                        wf this h = true → wf this h1 = true).
  { intros h1 Hs. unfold wf. by rewrite Hs. }
  destruct c; simpl; intros H Hwf.
  - destruct (isAllocated this) eqn:Hf.
    + rewrite Allocate_absorbed in H by done. by inversion H; subst.
    + by eapply Allocate_done_wf.
  - apply bind_inv in H as ([] & h1 & HC & Hr). inversion Hr; subst.
    eapply Hkeep; [|done]. by eapply Clear_storage_kept.
  - unfold ChangeDims in H. apply bind_inv in H as (cur & ? & [_ ->]%read_inv & H).
    destruct (Vector2i_ne d cur || negb (isAllocated this)).
    + apply bind_inv in H as (this1 & h1 & HF & HA).
      apply Free_members in HF as ->. by eapply Allocate_done_wf.
    + by inversion H; subst.
  - apply bind_inv in H as ([] & h1 & HC & Hr). inversion Hr; subst.
    eapply Hkeep; [|done]. by eapply UpdateDeviceFromHost_storage_kept.
  - apply bind_inv in H as ([] & h1 & HC & Hr). inversion Hr; subst.
    eapply Hkeep; [|done]. by eapply UpdateHostFromDevice_storage_kept.
  - apply bind_inv in H as ([] & h1 & HC & Hr). inversion Hr; subst.
    eapply Hkeep; [|done]. by eapply SetFrom_storage_kept.
  - apply Free_members in H as ->. by apply unallocated_wf.
Qed.

(** So every state that a history of calls reaches from the constructor
    [Image(bool)] satisfies it. *)
Lemma reachable_wf (cs : list call) (g : bool) (this : Image) (h h' : heap) :
  perform_all cs (Image_ctor g) h = Done this h' → wf this h' = true.
Proof.
  assert (Hall : ∀ cs this0 h0,
             perform_all cs this0 h0 = Done this h' →
             wf this0 h0 = true → wf this h' = true).
  { clear cs. induction cs as [|c cs IH]; intros this0 h0; simpl.
    - unfold ret. by inversion 1; subst.
    - intros (this1 & h1 & Hc & Hcs)%bind_inv Hwf.
      eapply IH; [exact Hcs|]. by eapply perform_wf. }
  intros H. eapply Hall; [exact H|]. by apply unallocated_wf.
Qed.

(** In a build that supports the domain mode of the image, the invariant
    and the flag give the storage. *)
Lemma wf_allocated (this : Image) (h : heap) :
  wf this h = true → isAllocated this = true →
  (allocateGPU this = true → COMPILE_WITHOUT_CUDA = false) →
  allocated this h = true.
Proof.
  unfold wf, allocated. intros Hwf Hf Hb. rewrite Hf in *. simpl in *.
  destruct (allocateGPU this); [rewrite (Hb eq_refl) in Hwf|]; done.
Qed.

End Invariant.

(** ** The specified properties *)

Section Claims.
Context {T : ElemType} {B : Build}.

(** C1. On a buffer whose [isAllocated] flag is set, [Allocate(d)]
    returns normally and changes nothing, whatever [d] is: every data
    member (dimensions, element count, both pointers) and the whole heap,
    hence both storage blocks, are as before.  In particular a second
    [Allocate] right after a first one, with other dimensions, is
    absorbed. *)
Theorem Allocate_when_allocated (d : Vector2i) (this : Image) (h : heap) :
  isAllocated this = true →
  Allocate d this h = Done this h
  ∧ ∀ d0 this0 h0,
      Allocate d0 this0 h0 = Done this h →
      (let* this1 := Allocate d0 this0 in Allocate d this1) h0 = Done this h.
Proof.
  intros Hf. split; [by apply Allocate_absorbed|].
  intros d0 this0 h0 H0. by rewrite Allocate_twice.
Qed.

(** C2. [ChangeDims(d)] with [d] the current dimensions of a buffer whose
    [isAllocated] flag is set returns normally and changes neither a data
    member nor the heap: the buffer is still allocated with the same
    dimensions, and the host block and the device block hold byte for
    byte what they held. *)
Theorem ChangeDims_same_dims (d : Vector2i) (this : Image) (h : heap) :
  isAllocated this = true →
  noDims this = Some d →
  ChangeDims d this h = Done this h.
Proof. apply ChangeDims_skip. Qed.

(** C3. Host content survives a trip through the device.  On an
    allocated dual-domain buffer of [n] elements, let the caller store
    [P] in the host block, call [UpdateDeviceFromHost], store any other
    content [Q] in the host block, and call [UpdateHostFromDevice]: every
    step returns normally and the host block holds [P] again. *)
Theorem host_device_roundtrip (this : Image) (h : heap) (n : Z) (P Q : list byte) :
  allocated this h = true →
  allocateGPU this = true →
  dataSize this = Some n →
  Z.of_nat (length P) = size_bytes n →
  Z.of_nat (length Q) = size_bytes n →
  ∃ h1 h2 h3 h4,
    write_host P this h = Done tt h1
    ∧ UpdateDeviceFromHost this h1 = Done tt h2
    ∧ write_host Q this h2 = Done tt h3
    ∧ host_bytes this h3 = Some (Some <$> Q)
    ∧ UpdateHostFromDevice this h3 = Done tt h4
    ∧ host_bytes this h4 = Some (Some <$> P).
Proof.
  intros Ha Hg Hn HP HQ. apply allocated_storage in Ha as [_ Hs].
  destruct (storage_dual _ _ _ Hs Hg Hn) as (bh & bd & hb & db & Hh & Hd & Hne).
  assert (HlP : length (Some <$> P) = length hb).
  { rewrite length_fmap. destruct Hh. lia. }
  assert (HlQ : length (Some <$> Q) = length (Some <$> P)).
  { rewrite !length_fmap. lia. }
  assert (HlD : length (Some <$> P) = length db).
  { rewrite length_fmap. destruct Hd. lia. }
  pose proof (host_at_store_same _ Hh HlP) as Hh1.
  pose proof (device_at_store_other bh (Block PinnedHost (Some <$> P)) Hd Hne) as Hd1.
  pose proof (device_at_store_same _ Hd1 HlD) as Hd2.
  pose proof (host_at_store_other bd (Block DeviceMem (Some <$> P)) Hh1
                (not_eq_sym Hne)) as Hh2.
  pose proof (host_at_store_same _ Hh2 HlQ) as Hh3.
  pose proof (device_at_store_other bh (Block PinnedHost (Some <$> Q)) Hd2 Hne) as Hd3.
  pose proof (host_at_store_same _ Hh3 (eq_sym HlQ)) as Hh4.
  eexists _, _, _, _. split_and!.
  - by eapply write_host_done.
  - by eapply UpdateDeviceFromHost_done.
  - by eapply write_host_done.
  - by apply (host_at_bytes Hh3).
  - by eapply UpdateHostFromDevice_done.
  - by apply (host_at_bytes Hh4).
Qed.

(** C10. [Clear(v)] on an allocated dual-domain buffer of [n] elements
    returns normally, and afterwards the host block and the device block
    are equal byte for byte: each consists of the byte [v] throughout. *)
Theorem Clear_dual_coherent (v : byte) (this : Image) (h : heap) (n : Z) :
  allocated this h = true →
  allocateGPU this = true →
  dataSize this = Some n →
  ∃ h',
    Clear v this h = Done tt h'
    ∧ host_bytes this h' = Some (replicate (Z.to_nat (size_bytes n)) (Some v))
    ∧ device_bytes this h' = host_bytes this h'.
Proof.
  intros Ha Hg Hn. apply allocated_storage in Ha as [_ Hs].
  destruct (storage_dual _ _ _ Hs Hg Hn) as (bh & bd & hb & db & Hh & Hd & Hne).
  assert (Hlh : length hb = Z.to_nat (size_bytes n)) by (destruct Hh; lia).
  assert (Hld : length db = Z.to_nat (size_bytes n)) by (destruct Hd; lia).
  eexists. split; [by eapply Clear_dual|].
  unfold host_bytes, device_bytes, host_block, device_block, GetData, deref.
  destruct Hh as [_ -> _ _ _]. destruct Hd as [_ _ -> _ _].
  rewrite live_store_eq, live_store_ne, live_store_eq by done. simpl.
  by rewrite Hlh, Hld.
Qed.

(** C4, amended.  For all [w], [h] with [0 <= w], [0 <= h] and
    [w * h <= INT_MAX], the constructor [Image((w,h), false)] returns an
    allocated buffer with dimensions [(w,h)] and [dataSize = w * h] whose
    host block consists of [w * h * sizeof(T)] zero bytes. *)
Theorem Image_ctor_dims_zeroed (w h : Z) (hp : heap) :
  0 <= w → 0 <= h → w * h <= INT_MAX →
  ∃ this hp',
    Image_ctor_dims (mkVector2i w h) false hp = Done this hp'
    ∧ allocated this hp' = true
    ∧ noDims this = Some (mkVector2i w h)
    ∧ dataSize this = Some (w * h)
    ∧ host_bytes this hp' = Some (replicate (Z.to_nat (w * h * sizeofT)) (Some x00)).
Proof.
  intros Hw Hh Hmax. unfold Image_ctor_dims.
  set (raw := {| allocateGPU := false; isAllocated := false; data_host := None;
                 data_device := None; noDims := None; dataSize := None |}).
  assert (Hn : 0 <= x (mkVector2i w h) * y (mkVector2i w h) <= INT_MAX)
    by (simpl; nia).
  destruct (Allocate_fresh (mkVector2i w h) raw hp eq_refl Hn)
    as (this & h1 & HA & Hal & Hg & Hd & Hs & _); [done|].
  simpl in Hg, Hs.
  apply allocated_storage in Hal as [Hf Hst].
  destruct (storage_host _ _ Hst) as (n & bh & hb & Hh1). rewrite Hg in Hh1.
  assert (n = w * h) as -> by (destruct Hh1; congruence).
  pose proof (Clear_host_only x00 _ _ _ _ _ _ Hh1 Hg) as HC.
  assert (Hlen : length hb = Z.to_nat (w * h * sizeofT)).
  { destruct Hh1 as [_ _ _ _ Hl]. rewrite size_bytes_exact in Hl by (simpl in Hn; lia).
    lia. }
  eexists this, _. split_and!; try done.
  - erewrite bind_done by exact HA. by erewrite bind_done by exact HC.
  - unfold allocated. rewrite Hf. simpl.
    erewrite storage_store; [done|by apply Hh1|done|].
    simpl. by rewrite length_replicate.
  - unfold host_bytes, host_block, GetData, deref.
    destruct Hh1 as [_ -> _ _ _]. rewrite live_store_eq. simpl. by rewrite Hlen.
Qed.

(** C5, at the failing input.  The constructor [Image(bool)] sets the
    dimensions to 0x0 and leaves [dataSize] without a value, so the two
    do not agree in the state it returns. *)
Theorem Image_ctor_dataSize_unset (allocateGPU : bool) :
  noDims (Image_ctor allocateGPU) = Some (mkVector2i 0 0)
  ∧ dataSize (Image_ctor allocateGPU) = None
  ∧ dims_agree (Image_ctor allocateGPU) = false.
Proof. done. Qed.

(** C7. [Free] twice in a row on a well-formed buffer: both calls return
    normally and leave the flag clear.  The first call releases each
    block of the buffer once (the blocks [l] it releases are distinct,
    were live before and are gone afterwards); the second call releases
    nothing and changes nothing.  When the flag is clear to begin with,
    as on a buffer that was never allocated, the first call changes
    nothing either. *)
Theorem Free_twice (this : Image) (h : heap) :
  wf this h = true →
  ∃ h1 l,
    Free this h = Done (set_isAllocated false this) h1
    ∧ isAllocated (set_isAllocated false this) = false
    ∧ freed h1 = l ++ freed h
    ∧ NoDup l
    ∧ (∀ b, b ∈ l → is_Some (live h !! b) ∧ live h1 !! b = None)
    ∧ (isAllocated this = false → set_isAllocated false this = this ∧ h1 = h)
    ∧ Free (set_isAllocated false this) h1 = Done (set_isAllocated false this) h1.
Proof.
  intros Hwf. unfold wf in Hwf.
  assert (Hsnd : ∀ h1, Free (set_isAllocated false this) h1
                       = Done (set_isAllocated false this) h1)
    by (intros h1; by apply Free_unallocated).
  destruct (isAllocated this) eqn:Hf; simpl in Hwf.
  - apply orb_true_iff in Hwf as [Hnc | Hst].
    + apply andb_true_iff in Hnc as [Hg Hc].
      exists h, []. split_and!; try done.
      * by apply Free_without_cuda.
      * constructor.
      * intros b Hb. by apply elem_of_nil in Hb.
    + destruct (allocateGPU this) eqn:Hg.
      * destruct (storage_host _ _ Hst) as (n & ? & ? & Hn). destruct Hn as [Hn _ _ _ _].
        destruct (storage_dual _ _ _ Hst Hg Hn) as (bh & bd & hb & db & Hh & Hd & Hne).
        eexists _, [bh; bd]. split_and!; try done.
        -- by eapply Free_dual.
        -- done.
        -- apply NoDup_cons. split; [|apply NoDup_singleton].
           by intros ->%list_elem_of_singleton.
        -- intros b Hb. simpl.
           destruct Hh as [_ _ Hbh _ _]. destruct Hd as [_ _ _ Hbd _].
           apply elem_of_cons in Hb as [->|Hb].
           ++ split; [by rewrite Hbh|]. apply lookup_delete_eq.
           ++ apply list_elem_of_singleton in Hb as ->.
              split; [by rewrite Hbd|].
              rewrite lookup_delete_ne by done. apply lookup_delete_eq.
      * destruct (storage_host _ _ Hst) as (n & bh & hb & Hh). rewrite Hg in Hh.
        eexists _, [bh]. split_and!; try done.
        -- by eapply Free_host_only.
        -- done.
        -- apply NoDup_singleton.
        -- intros b Hb. simpl. apply list_elem_of_singleton in Hb as ->.
           destruct Hh as [_ _ Hbh _ _]. split; [by rewrite Hbh|].
           apply lookup_delete_eq.
  - exists h, []. split_and!; try done.
    + rewrite <- Hf at 1. rewrite set_isAllocated_id. by apply Free_unallocated.
    + constructor.
    + intros b Hb. by apply elem_of_nil in Hb.
    + intros _. by rewrite <- Hf, set_isAllocated_id.
Qed.

(** [SetFrom] never reads the [dataSize] of the destination. *)
Lemma SetFrom_ignores_own_dataSize (source this : Image)
    (copyHost copyDevice : bool) (k : Z) :
  SetFrom source copyHost copyDevice (set_dataSize k this)
  = SetFrom source copyHost copyDevice this.
Proof. reflexivity. Qed.

(** A source with more bytes than the destination holds makes the host
    copy run past the end of the destination block. *)
Lemma SetFrom_overrun (source this : Image) (copyDevice : bool) (h : heap) (m n : Z)
    (bh bs : positive) (s ss : space) (hb sb : list (option byte)) :
  host_at this h m bh s hb →
  host_at source h n bs ss sb →
  size_bytes m < size_bytes n →
  SetFrom source true copyDevice this h = Undefined.
Proof.
  intros [Hm Hp Hb Hs Hl] [Hn Hps Hbs Hss Hls] Hlt.
  unfold SetFrom. rewrite Hp, Hps, Hn. simpl read.
  unfold bind at 1. do 3 erewrite bind_done by reflexivity.
  unfold memcpy, copy_mem. rewrite Hb, Hbs. simpl. rewrite Hs, Hss. simpl.
  destruct (Z.leb_spec (size_bytes n) (Z.of_nat (length hb))) as [?|_]; [lia|done].
Qed.

(** C6. [SetFrom(source, true, false)] between two allocated buffers of
    the same element count, each with its own host block: the call
    returns normally, the host block of the destination then holds byte
    for byte what the host block of the source holds, the source is
    untouched, the device block of a dual-domain destination is
    untouched, and the destination is still allocated; its data members
    are not assigned at all. *)
Theorem SetFrom_host_only (source this : Image) (h : heap) (n : Z) :
  allocated this h = true →
  allocated source h = true →
  dataSize this = Some n →
  dataSize source = Some n →
  data_host this ≠ data_host source →
  ∃ h' sb,
    SetFrom source true false this h = Done tt h'
    ∧ host_bytes source h = Some sb
    ∧ host_bytes this h' = Some sb
    ∧ host_bytes source h' = Some sb
    ∧ (allocateGPU this = true → device_block this h' = device_block this h)
    ∧ allocated this h' = true.
Proof.
  intros Ha Hsa Hn Hsn Hne.
  apply allocated_storage in Ha as [Hf Hst].
  apply allocated_storage in Hsa as [_ Hsst].
  destruct (storage_host _ _ Hst) as (n1 & bh & hb & Hh).
  destruct (storage_host _ _ Hsst) as (n2 & bs & sb & Hs).
  assert (n1 = n) as -> by (destruct Hh; congruence).
  assert (n2 = n) as -> by (destruct Hs; congruence).
  assert (Hbne : bh ≠ bs).
  { intros ->. apply Hne. destruct Hh as [_ -> _ _ _]. by destruct Hs as [_ -> _ _ _]. }
  assert (Hcopy : copy_prefix (size_bytes n) sb hb = sb).
  { apply copy_prefix_whole; [by destruct Hs | by destruct Hh]. }
  pose proof (SetFrom_host_part source this h n n _ _ _ _ _ _ Hh Hs (Z.le_refl _) Hbne) as HS.
  rewrite Hcopy in HS.
  assert (Hlen : length sb = length hb).
  { destruct Hh as [_ _ _ _ Hl1]. destruct Hs as [_ _ _ _ Hl2]. lia. }
  eexists _, sb. split_and!.
  - exact HS.
  - by apply (host_at_bytes Hs).
  - by apply (host_at_bytes (host_at_store_same _ Hh Hlen)).
  - by apply (host_at_bytes (host_at_store_other _ _ Hs Hbne)).
  - intros Hg. destruct (storage_device _ _ Hst Hg) as (n3 & bd & db & Hd).
    pose proof (host_device_apart Hh Hd) as Hhd.
    transitivity (Some (Block DeviceMem db)).
    + by apply (device_at_bytes (device_at_store_other _ _ Hd Hhd)).
    + symmetry. by apply (device_at_bytes Hd).
  - unfold allocated. rewrite Hf. simpl.
    erewrite storage_store; [done|by apply Hh|done|]. simpl. done.
Qed.

(** C9. The extent of a [SetFrom] copy is the element count [n] of the
    source.  Between two allocated buffers, the source no larger than the
    destination, each block that a flag selects receives exactly the
    first [n * sizeof(T)] bytes of the matching source block and keeps
    the rest of what it held; a block that no flag selects keeps all of
    it.  The element count of the destination has no part in this: the
    same call on a destination with any other [dataSize] ends in the same
    heap. *)
Theorem SetFrom_extent_is_source_count (source this : Image)
    (copyHost copyDevice : bool) (h : heap) (m n : Z) :
  allocated this h = true →
  allocated source h = true →
  dataSize this = Some m →
  dataSize source = Some n →
  size_bytes n <= size_bytes m →
  data_host this ≠ data_host source →
  (copyDevice = true →
   allocateGPU this = true ∧ allocateGPU source = true
   ∧ data_device this ≠ data_device source) →
  ∃ h' hb sb,
    SetFrom source copyHost copyDevice this h = Done tt h'
    ∧ host_bytes this h = Some hb
    ∧ host_bytes source h = Some sb
    ∧ host_bytes this h'
      = Some (if copyHost then copy_prefix (size_bytes n) sb hb else hb)
    ∧ (copyDevice = true →
       ∃ db sdb,
         device_bytes this h = Some db
         ∧ device_bytes source h = Some sdb
         ∧ device_bytes this h' = Some (copy_prefix (size_bytes n) sdb db))
    ∧ (copyDevice = false → allocateGPU this = true →
       device_bytes this h' = device_bytes this h)
    ∧ ∀ k, SetFrom source copyHost copyDevice (set_dataSize k this) h = Done tt h'.
Proof.
  intros Ha Hsa Hm Hn Hle Hne Hdev.
  apply allocated_storage in Ha as [Hf Hst].
  apply allocated_storage in Hsa as [_ Hsst].
  destruct (storage_host _ _ Hst) as (n1 & bh & hb & Hh).
  destruct (storage_host _ _ Hsst) as (n2 & bs & sb & Hs).
  assert (n1 = m) as -> by (destruct Hh; congruence).
  assert (n2 = n) as -> by (destruct Hs; congruence).
  assert (Hbne : bh ≠ bs).
  { intros ->. apply Hne. destruct Hh as [_ -> _ _ _]. by destruct Hs as [_ -> _ _ _]. }
  pose proof (proj2 (host_at_bytes Hh)) as Hhb.
  pose proof (proj2 (host_at_bytes Hs)) as Hsb.
  pose proof (SetFrom_host_part source this h m n _ _ _ _ _ _ Hh Hs Hle Hbne) as HH.
  assert (Hlen : length (copy_prefix (size_bytes n) sb hb) = length hb).
  { apply copy_prefix_length; [apply size_bytes_nonneg|..].
    - destruct Hs as [_ _ _ _ Hl]. lia.
    - destruct Hh as [_ _ _ _ Hl]. lia. }
  pose proof (host_at_store_same _ Hh Hlen) as Hh1.
  destruct copyDevice.
  - destruct (Hdev eq_refl) as (Hg & Hsg & Hdne).
    destruct (storage_device _ _ Hst Hg) as (n3 & bd & db & Hd).
    destruct (storage_device _ _ Hsst Hsg) as (n4 & bsd & sdb & Hsd).
    assert (n3 = m) as -> by (destruct Hd; congruence).
    assert (n4 = n) as -> by (destruct Hsd; congruence).
    assert (Hdd : bd ≠ bsd).
    { intros ->. apply Hdne. destruct Hd as [_ _ -> _ _]. by destruct Hsd as [_ _ -> _ _]. }
    pose proof (proj2 (device_at_bytes Hd)) as Hdb.
    pose proof (proj2 (device_at_bytes Hsd)) as Hsdb.
    assert (Hdlen : length (copy_prefix (size_bytes n) sdb db) = length db).
    { apply copy_prefix_length; [apply size_bytes_nonneg|..].
      - destruct Hsd as [_ _ _ _ Hl]. lia.
      - destruct Hd as [_ _ _ _ Hl]. lia. }
    destruct copyHost.
    + pose proof (device_at_store_other bh
                    (Block (if allocateGPU this then PinnedHost else NewArray)
                           (copy_prefix (size_bytes n) sb hb))
                    Hd (host_device_apart Hh Hd)) as Hd1.
      pose proof (device_at_store_other bh
                    (Block (if allocateGPU this then PinnedHost else NewArray)
                           (copy_prefix (size_bytes n) sb hb))
                    Hsd (host_device_apart Hh Hsd)) as Hsd1.
      pose proof (SetFrom_device_part source this _ m n _ _ _ _ Hd1 Hsd1 Hle Hdd) as HD.
      rewrite <- (SetFrom_sequence _ _ _ _ HH) in HD.
      eexists _, hb, sb. split_and!.
      * exact HD.
      * exact Hhb.
      * exact Hsb.
      * apply (host_at_bytes
                 (host_at_store_other bd _ Hh1
                    (not_eq_sym (host_device_apart Hh Hd)))).
      * intros _. exists db, sdb. split_and!; [exact Hdb|exact Hsdb|].
        apply (device_at_bytes (device_at_store_same _ Hd1 Hdlen)).
      * done.
      * intros k. exact HD.
    + pose proof (SetFrom_device_part source this _ m n _ _ _ _ Hd Hsd Hle Hdd) as HD.
      eexists _, hb, sb. split_and!.
      * exact HD.
      * exact Hhb.
      * exact Hsb.
      * apply (host_at_bytes
                 (host_at_store_other bd _ Hh
                    (not_eq_sym (host_device_apart Hh Hd)))).
      * intros _. exists db, sdb. split_and!; [exact Hdb|exact Hsdb|].
        apply (device_at_bytes (device_at_store_same _ Hd Hdlen)).
      * done.
      * intros k. exact HD.
  - destruct copyHost.
    + eexists _, hb, sb. split_and!.
      * exact HH.
      * exact Hhb.
      * exact Hsb.
      * apply (host_at_bytes Hh1).
      * done.
      * intros _ Hg. destruct (storage_device _ _ Hst Hg) as (n3 & bd & db & Hd).
        rewrite (proj2 (device_at_bytes Hd)).
        apply (device_at_bytes
                 (device_at_store_other _ _ Hd (host_device_apart Hh Hd))).
      * intros k. exact HH.
    + assert (HN : SetFrom source false false this h = Done tt h).
      { unfold SetFrom. erewrite bind_done by reflexivity.
        by destruct COMPILE_WITHOUT_CUDA. }
      exists h, hb, sb. split_and!; try done.
Qed.

(** C8. The scenario, in any heap and for either domain mode that the
    build supports.  The constructor [Image(allocateGPU)] gives an
    unallocated buffer of extent (0,0).  [Allocate((4,3))] makes
    [dataSize] 12.  [Clear(0xFF)] makes all [12 * sizeof(T)] bytes of the
    host block [0xFF].  [ChangeDims((4,3))] changes nothing, so the bytes
    are still [0xFF].  [ChangeDims((2,2))] leaves the buffer allocated
    with dimensions (2,2) and [dataSize] 4, on storage of [4 * sizeof(T)]
    bytes. *)
Theorem scenario_allocate_clear_resize (allocateGPU : bool) (h : heap) :
  (allocateGPU = true → COMPILE_WITHOUT_CUDA = false) →
  ∃ this1 h1 h2 this3 h3,
    isAllocated (Image_ctor allocateGPU) = false
    ∧ noDims (Image_ctor allocateGPU) = Some (mkVector2i 0 0)
    ∧ Allocate (mkVector2i 4 3) (Image_ctor allocateGPU) h = Done this1 h1
    ∧ dataSize this1 = Some 12
    ∧ Clear xff this1 h1 = Done tt h2
    ∧ host_bytes this1 h2 = Some (replicate (Z.to_nat (12 * sizeofT)) (Some xff))
    ∧ ChangeDims (mkVector2i 4 3) this1 h2 = Done this1 h2
    ∧ ChangeDims (mkVector2i 2 2) this1 h2 = Done this3 h3
    ∧ allocated this3 h3 = true
    ∧ noDims this3 = Some (mkVector2i 2 2)
    ∧ dataSize this3 = Some 4
    ∧ length <$> host_bytes this3 h3 = Some (Z.to_nat (4 * sizeofT)).
Proof.
  intros Hbuild.
  destruct (Allocate_fresh (mkVector2i 4 3) (Image_ctor allocateGPU) h eq_refl)
    as (this1 & h1 & HA & Hal1 & Hg1 & Hd1 & Hs1 & _ & _).
  { simpl. unfold INT_MAX. lia. }
  { exact Hbuild. }
  simpl in Hs1, Hg1.
  apply allocated_storage in Hal1 as [Hf1 Hst1].
  destruct (Clear_storage xff this1 h1 12 Hst1 Hs1) as (h2 & HC & Hst2 & Hb2 & _).
  assert (Hal2 : allocated this1 h2 = true).
  { unfold allocated. by rewrite Hf1, Hst2. }
  destruct (ChangeDims_resize (mkVector2i 2 2) (mkVector2i 4 3) this1 h2 Hal2 Hd1 eq_refl)
    as (this3 & h3 & HR & Hal3 & _ & Hd3 & Hs3 & Hb3).
  { simpl. unfold INT_MAX. lia. }
  simpl in Hs3, Hb3.
  assert (Hsz : ∀ n, 0 <= n <= INT_MAX → size_bytes n = n * sizeofT)
    by apply size_bytes_exact.
  exists this1, h1, h2, this3, h3. split_and!.
  - done.
  - done.
  - exact HA.
  - exact Hs1.
  - exact HC.
  - rewrite Hb2, Hsz; [done|unfold INT_MAX; lia].
  - by apply ChangeDims_skip.
  - exact HR.
  - exact Hal3.
  - exact Hd3.
  - exact Hs3.
  - rewrite Hb3. simpl. rewrite length_replicate, Hsz; [done|unfold INT_MAX; lia].
Qed.

End Claims.

(** ** The properties on worked states *)

Lemma Allocate_when_allocated_witness :
  Allocate (T := uchar_t) (B := cuda_build) (mkVector2i 7 5) image_a worked_heap
  = Done image_a worked_heap.
Proof.
  apply (Allocate_when_allocated (T := uchar_t) (B := cuda_build)
           (mkVector2i 7 5) image_a worked_heap).
  reflexivity.
Defined.

Lemma ChangeDims_same_dims_witness :
  ChangeDims (T := uchar_t) (B := cuda_build) (mkVector2i 2 2) image_a worked_heap
  = Done image_a worked_heap.
Proof.
  apply (ChangeDims_same_dims (T := uchar_t) (B := cuda_build)
           (mkVector2i 2 2) image_a worked_heap); reflexivity.
Defined.

Lemma host_device_roundtrip_witness :
  ∃ h1 h2 h3 h4,
    write_host [xde; xad; xbe; xef] image_a worked_heap = Done tt h1
    ∧ UpdateDeviceFromHost (T := uchar_t) (B := cuda_build) image_a h1 = Done tt h2
    ∧ write_host [x00; x00; x00; x00] image_a h2 = Done tt h3
    ∧ host_bytes image_a h3 = Some (Some <$> [x00; x00; x00; x00])
    ∧ UpdateHostFromDevice (T := uchar_t) (B := cuda_build) image_a h3 = Done tt h4
    ∧ host_bytes image_a h4 = Some (Some <$> [xde; xad; xbe; xef]).
Proof.
  apply (host_device_roundtrip (T := uchar_t) (B := cuda_build)
           image_a worked_heap 4 [xde; xad; xbe; xef] [x00; x00; x00; x00]);
    reflexivity.
Defined.

Lemma Clear_dual_coherent_witness :
  ∃ h',
    Clear (T := uchar_t) (B := cuda_build) x7f image_a worked_heap = Done tt h'
    ∧ host_bytes image_a h'
      = Some (replicate (Z.to_nat (size_bytes (T := uchar_t) 4)) (Some x7f))
    ∧ device_bytes image_a h' = host_bytes image_a h'.
Proof.
  apply (Clear_dual_coherent (T := uchar_t) (B := cuda_build)
           x7f image_a worked_heap 4); reflexivity.
Defined.

Lemma Image_ctor_dims_zeroed_witness :
  ∃ this hp',
    Image_ctor_dims (T := float_t) (B := cpu_build) (mkVector2i 3 2) false empty_heap
    = Done this hp'
    ∧ allocated (T := float_t) (B := cpu_build) this hp' = true
    ∧ noDims this = Some (mkVector2i 3 2)
    ∧ dataSize this = Some (3 * 2)
    ∧ host_bytes this hp'
      = Some (replicate (Z.to_nat (3 * 2 * sizeofT (ElemType := float_t))) (Some x00)).
Proof.
  apply (Image_ctor_dims_zeroed (T := float_t) (B := cpu_build) 3 2 empty_heap);
    unfold INT_MAX; lia.
Defined.

(** C4, as stated, at [w = h = 65536]: both are non-negative [int]
    values, their product does not fit [int], and the constructor does
    not return a buffer of [w * h] elements. *)
Lemma Image_ctor_dims_overflow :
  0 <= 65536 ∧ 0 <= 65536
  ∧ ¬ ∃ this hp',
        Image_ctor_dims (T := uchar_t) (B := cpu_build)
          (mkVector2i 65536 65536) false empty_heap = Done this hp'
        ∧ dataSize this = Some (65536 * 65536).
Proof.
  split_and!; [lia..|]. intros (this & hp' & H & _). vm_compute in H. discriminate H.
Qed.

Lemma SetFrom_host_only_witness :
  ∃ h' sb,
    SetFrom (T := uchar_t) (B := cuda_build) image_b true false image_a worked_heap
    = Done tt h'
    ∧ host_bytes image_b worked_heap = Some sb
    ∧ host_bytes image_a h' = Some sb
    ∧ host_bytes image_b h' = Some sb
    ∧ (allocateGPU image_a = true →
       device_block image_a h' = device_block image_a worked_heap)
    ∧ allocated (T := uchar_t) (B := cuda_build) image_a h' = true.
Proof.
  apply (SetFrom_host_only (T := uchar_t) (B := cuda_build)
           image_b image_a worked_heap 4); try reflexivity.
  discriminate.
Defined.

Lemma SetFrom_extent_is_source_count_witness :
  ∃ h' hb sb,
    SetFrom (T := uchar_t) (B := cuda_build) image_c true true image_a worked_heap
    = Done tt h'
    ∧ host_bytes image_a worked_heap = Some hb
    ∧ host_bytes image_c worked_heap = Some sb
    ∧ host_bytes image_a h'
      = Some (copy_prefix (size_bytes (T := uchar_t) 2) sb hb)
    ∧ (true = true →
       ∃ db sdb,
         device_bytes image_a worked_heap = Some db
         ∧ device_bytes image_c worked_heap = Some sdb
         ∧ device_bytes image_a h'
           = Some (copy_prefix (size_bytes (T := uchar_t) 2) sdb db))
    ∧ (true = false → allocateGPU image_a = true →
       device_bytes image_a h' = device_bytes image_a worked_heap)
    ∧ ∀ k, SetFrom (T := uchar_t) (B := cuda_build) image_c true true
             (set_dataSize k image_a) worked_heap = Done tt h'.
Proof.
  apply (SetFrom_extent_is_source_count (T := uchar_t) (B := cuda_build)
           image_c image_a true true worked_heap 4 2); try reflexivity.
  - vm_compute. discriminate.
  - discriminate.
  - intros _. split_and!; [reflexivity..|discriminate].
Defined.

Lemma Free_twice_witness :
  ∃ h1 l,
    Free (B := cuda_build) image_a worked_heap = Done (set_isAllocated false image_a) h1
    ∧ isAllocated (set_isAllocated false image_a) = false
    ∧ freed h1 = l ++ freed worked_heap
    ∧ NoDup l
    ∧ (∀ b, b ∈ l → is_Some (live worked_heap !! b) ∧ live h1 !! b = None)
    ∧ (isAllocated image_a = false →
       set_isAllocated false image_a = image_a ∧ h1 = worked_heap)
    ∧ Free (B := cuda_build) (set_isAllocated false image_a) h1
      = Done (set_isAllocated false image_a) h1.
Proof.
  apply (Free_twice (T := uchar_t) (B := cuda_build) image_a worked_heap).
  reflexivity.
Defined.

Lemma scenario_allocate_clear_resize_witness :
  ∃ this1 h1 h2 this3 h3,
    isAllocated (Image_ctor true) = false
    ∧ noDims (Image_ctor true) = Some (mkVector2i 0 0)
    ∧ Allocate (T := float_t) (B := cuda_build) (mkVector2i 4 3) (Image_ctor true) empty_heap
      = Done this1 h1
    ∧ dataSize this1 = Some 12
    ∧ Clear (T := float_t) (B := cuda_build) xff this1 h1 = Done tt h2
    ∧ host_bytes this1 h2
      = Some (replicate (Z.to_nat (12 * sizeofT (ElemType := float_t))) (Some xff))
    ∧ ChangeDims (T := float_t) (B := cuda_build) (mkVector2i 4 3) this1 h2 = Done this1 h2
    ∧ ChangeDims (T := float_t) (B := cuda_build) (mkVector2i 2 2) this1 h2 = Done this3 h3
    ∧ allocated (T := float_t) (B := cuda_build) this3 h3 = true
    ∧ noDims this3 = Some (mkVector2i 2 2)
    ∧ dataSize this3 = Some 4
    ∧ length <$> host_bytes this3 h3
      = Some (Z.to_nat (4 * sizeofT (ElemType := float_t))).
Proof.
  apply (scenario_allocate_clear_resize (T := float_t) (B := cuda_build) true empty_heap).
  reflexivity.
Defined.

(** * Further properties of the class *)

(** ** What [Allocate] returns, written out *)

Section AllocateExplicit.
Context {T : ElemType} {B : Build}.

Lemma Allocate_host_explicit (d : Vector2i) (this : Image) (h : heap) :
  isAllocated this = false →
  allocateGPU this = false →
  0 <= x d * y d <= INT_MAX →
  Allocate d this h
  = Done (mkImage false true (Some (next_block h)) (data_device this)
                  (Some d) (Some (x d * y d)))
         {| live := <[next_block h :=
                        Block NewArray (replicate (Z.to_nat (x d * y d * sizeofT)) None)]>
                    (live h);
            next_block := Pos.succ (next_block h);
            freed := freed h |}.
Proof.
  intros Hf Hg Hn.
  assert (Hint : in_int (x d * y d) = true).
  { apply in_int_spec. unfold INT_MIN, INT_MAX in *. lia. }
  unfold Allocate, bind at 1. rewrite Hf. simpl negb. cbv iota.
  unfold int_mul. rewrite Hint. unfold bind at 1, ret at 1.
  destruct this as [gpu fl ph pd nd ds]. simpl in *. subst.
  unfold new_array, bind, alloc, ret.
  destruct (Z.ltb_spec (x d * y d) 0) as [?|_]; [lia|]. reflexivity.
Qed.

Lemma Allocate_dual_explicit (d : Vector2i) (this : Image) (h : heap) :
  isAllocated this = false →
  allocateGPU this = true →
  COMPILE_WITHOUT_CUDA = false →
  0 <= x d * y d <= INT_MAX →
  Allocate d this h
  = Done (mkImage true true (Some (next_block h)) (Some (Pos.succ (next_block h)))
                  (Some d) (Some (x d * y d)))
         {| live := <[Pos.succ (next_block h) :=
                        Block DeviceMem
                          (replicate (Z.to_nat (size_bytes (x d * y d))) None)]>
                    (<[next_block h :=
                         Block PinnedHost
                           (replicate (Z.to_nat (size_bytes (x d * y d))) None)]>
                     (live h));
            next_block := Pos.succ (Pos.succ (next_block h));
            freed := freed h |}.
Proof.
  intros Hf Hg Hc Hn.
  pose proof (size_bytes_fits _ Hn) as Hfit.
  assert (Hint : in_int (x d * y d) = true).
  { apply in_int_spec. unfold INT_MIN, INT_MAX in *. lia. }
  unfold Allocate, bind at 1. rewrite Hf. simpl negb. cbv iota.
  unfold int_mul. rewrite Hint. unfold bind at 1, ret at 1.
  destruct this as [gpu fl ph pd nd ds]. simpl in *. subst. rewrite Hc.
  unfold cudaMallocHost, cudaMalloc, bind, alloc, ret.
  destruct (Z.leb_spec (size_bytes (x d * y d)) PTRDIFF_MAX) as [_|?]; [|lia].
  reflexivity.
Qed.

End AllocateExplicit.

(** ** Allocation, construction and resizing *)

Section Lifecycle.
Context {T : ElemType} {B : Build}.

Lemma Vector2i_ne_false (a b : Vector2i) : Vector2i_ne a b = false → a = b.
Proof.
  unfold Vector2i_ne. intros [Hx Hy]%orb_false_iff.
  apply negb_false_iff, Z.eqb_eq in Hx. apply negb_false_iff, Z.eqb_eq in Hy.
  destruct a, b. simpl in *. by subst.
Qed.

(** Whenever [ChangeDims(d)] returns, the flag is set and the dimensions
    are [d]. *)
Lemma ChangeDims_done (d : Vector2i) (this this' : Image) (h h' : heap) :
  ChangeDims d this h = Done this' h' →
  isAllocated this' = true ∧ noDims this' = Some d.
Proof.
  unfold ChangeDims. intros (cur & ? & [Hcur ->]%read_inv & H)%bind_inv.
  destruct (Vector2i_ne d cur || negb (isAllocated this)) eqn:Hc.
  - apply bind_inv in H as (this1 & h1 & HF & HA).
    apply Free_members in HF as ->.
    split; [by eapply Allocate_sets_flag|].
    unfold Allocate in HA. apply bind_inv in HA as (a & h2 & Hin & Hret).
    unfold ret in Hret. inversion Hret; subst. clear Hret. simpl in Hin.
    apply bind_inv in Hin as (n & h3 & Hmul & Hrest).
    destruct (allocateGPU this); [destruct COMPILE_WITHOUT_CUDA|].
    + unfold ret in Hrest. by inversion Hrest.
    + apply bind_inv in Hrest as (ph & ? & _ & Hrest).
      apply bind_inv in Hrest as (pd & ? & _ & Hrest).
      unfold ret in Hrest. by inversion Hrest.
    + apply bind_inv in Hrest as (ph & ? & _ & Hrest).
      unfold ret in Hrest. by inversion Hrest.
  - unfold ret in H. inversion H; subst.
    apply orb_false_iff in Hc as [Hne Hf].
    apply Vector2i_ne_false in Hne as ->. apply negb_false_iff in Hf. done.
Qed.

(** X1. [Allocate] on a buffer whose flag is clear, for dimensions whose
    product is a non-negative [int], in a build that supports the domain
    mode: the call returns an allocated buffer with those dimensions and
    that element count.  The host block is a fresh block of
    [dataSize * sizeof(T)] bytes, and so is the device block of a
    dual-domain buffer; every byte of them is indeterminate, nothing is
    cleared.  No block is released. *)
Theorem Allocate_gives_uncleared_storage (d : Vector2i) (this : Image) (h : heap) :
  isAllocated this = false →
  0 <= x d * y d <= INT_MAX →
  (allocateGPU this = true → COMPILE_WITHOUT_CUDA = false) →
  ∃ this' h',
    Allocate d this h = Done this' h'
    ∧ allocated this' h' = true
    ∧ allocateGPU this' = allocateGPU this
    ∧ noDims this' = Some d
    ∧ dataSize this' = Some (x d * y d)
    ∧ data_host this' = Some (next_block h)
    ∧ host_bytes this' h' = Some (replicate (Z.to_nat (x d * y d * sizeofT)) None)
    ∧ (allocateGPU this = true →
       device_bytes this' h' = Some (replicate (Z.to_nat (x d * y d * sizeofT)) None))
    ∧ freed h' = freed h.
Proof.
  intros Hf Hn Hb.
  destruct (Allocate_fresh d this h Hf Hn Hb)
    as (this' & h' & HA & Hal & Hg & Hd & Hs & Hhb & Hfr).
  pose proof (size_bytes_exact _ Hn) as Hex.
  exists this', h'. split_and!; try done.
  - destruct (allocateGPU this) eqn:Hgpu.
    + rewrite (Allocate_dual_explicit d this h Hf Hgpu (Hb eq_refl) Hn) in HA.
      by inversion HA.
    + rewrite (Allocate_host_explicit d this h Hf Hgpu Hn) in HA. by inversion HA.
  - by rewrite Hhb, Hex.
  - intros Hgpu.
    rewrite (Allocate_dual_explicit d this h Hf Hgpu (Hb Hgpu) Hn) in HA.
    inversion HA; subst. unfold device_bytes, device_block, GetData, deref. simpl.
    rewrite lookup_insert_eq. simpl. by rewrite Hex.
Qed.

(** X2. [Allocate] on a buffer whose flag is clear, for dimensions whose
    product is a negative [int]: the allocation fails and the process
    ends, on the host path ([new T[dataSize]]) as on the CUDA path (the
    converted size is no size of any object). *)
Theorem Allocate_negative_count_aborts (d : Vector2i) (this : Image) (h : heap) :
  isAllocated this = false →
  INT_MIN <= x d * y d < 0 →
  (allocateGPU this = true → COMPILE_WITHOUT_CUDA = false) →
  Allocate d this h = Fatal.
Proof.
  intros Hf Hn Hb.
  assert (Hint : in_int (x d * y d) = true).
  { apply in_int_spec. unfold INT_MIN, INT_MAX in *. lia. }
  unfold Allocate, bind at 1. rewrite Hf. simpl negb. cbv iota.
  unfold int_mul. rewrite Hint. unfold bind at 1, ret at 1.
  destruct this as [gpu fl ph pd nd ds]. simpl in *. subst.
  destruct gpu.
  - rewrite (Hb eq_refl). unfold cudaMallocHost, bind.
    assert (Hbig : PTRDIFF_MAX < size_bytes (x d * y d)).
    { unfold size_bytes, SIZE_MODULUS, PTRDIFF_MAX.
      pose proof sizeofT_bounds as Hs. unfold INT_MIN in Hn.
      rewrite <- (Z.mod_add _ 1) by lia.
      rewrite Z.mod_small; nia. }
    destruct (Z.leb_spec (size_bytes (x d * y d)) PTRDIFF_MAX); [lia|done].
  - unfold new_array, bind.
    destruct (Z.ltb_spec (x d * y d) 0); [done|lia].
Qed.

(** X3. In a build without CUDA a dual-domain image never gets storage:
    [Allocate] returns with the flag set, the heap as it was and
    [data_host] unassigned, and the constructor [Image(noDims, true)],
    whose [Clear()] passes that pointer to [memset], has undefined
    behaviour for every [noDims]. *)
Theorem dual_without_cuda_has_no_storage (d : Vector2i) (h : heap) :
  COMPILE_WITHOUT_CUDA = true →
  (in_int (x d * y d) = true →
   ∃ this', Allocate d (Image_ctor true) h = Done this' h
            ∧ isAllocated this' = true
            ∧ data_host this' = None
            ∧ data_device this' = None)
  ∧ Image_ctor_dims d true h = Undefined.
Proof.
  intros Hc. split.
  - intros Hint. eexists.
    unfold Allocate, bind, int_mul, ret. simpl. rewrite Hint, Hc. done.
  - unfold Image_ctor_dims, Allocate, bind, int_mul, ret. simpl.
    destruct (in_int (x d * y d)); [|done]. rewrite Hc. done.
Qed.

(** X4. In a build with CUDA the constructor [Image((w,h), true)], for
    [w * h] a non-negative [int], returns an allocated dual-domain
    buffer of [w * h] elements whose host block and device block both
    consist of zero bytes; the two blocks are coherent. *)
Theorem Image_ctor_dims_dual_zeroed (d : Vector2i) (hp : heap) :
  COMPILE_WITHOUT_CUDA = false →
  0 <= x d * y d <= INT_MAX →
  ∃ this hp',
    Image_ctor_dims d true hp = Done this hp'
    ∧ allocated this hp' = true
    ∧ allocateGPU this = true
    ∧ noDims this = Some d
    ∧ dataSize this = Some (x d * y d)
    ∧ host_bytes this hp' = Some (replicate (Z.to_nat (x d * y d * sizeofT)) (Some x00))
    ∧ device_bytes this hp' = Some (replicate (Z.to_nat (x d * y d * sizeofT)) (Some x00))
    ∧ coherent this hp'.
Proof.
  intros Hc Hn. unfold Image_ctor_dims.
  set (raw := {| allocateGPU := true; isAllocated := false; data_host := None;
                 data_device := None; noDims := None; dataSize := None |}).
  destruct (Allocate_fresh d raw hp eq_refl Hn (λ _, Hc))
    as (this & h1 & HA & Hal & Hg & Hd & Hs & _).
  simpl in Hg.
  apply allocated_storage in Hal as [Hf Hst].
  destruct (Clear_storage x00 this h1 _ Hst Hs) as (h2 & HC & Hst2 & Hhb & Hdb).
  specialize (Hdb Hg). rewrite size_bytes_exact in Hhb, Hdb by done.
  exists this, h2. split_and!; try done.
  - erewrite bind_done by exact HA. by erewrite bind_done by exact HC.
  - unfold allocated. by rewrite Hf, Hst2.
  - exists (replicate (Z.to_nat (x d * y d * sizeofT)) x00).
    by rewrite fmap_replicate.
Qed.

(** X5. On a buffer whose flag is clear, [ChangeDims(d)] is [Allocate(d)]:
    the release in between does nothing.  This holds also when [d] equals
    the dimensions the buffer already records, as on the 0x0 buffer of
    the constructor [Image(bool)]. *)
Theorem ChangeDims_unallocated_is_Allocate (d cur : Vector2i) (this : Image) (h : heap) :
  isAllocated this = false →
  noDims this = Some cur →
  ChangeDims d this h = Allocate d this h.
Proof.
  intros Hf Hcur. unfold ChangeDims. rewrite Hcur. simpl read.
  erewrite bind_done by reflexivity. rewrite Hf, orb_true_r.
  by erewrite bind_done by (by apply Free_unallocated).
Qed.

(** X6. [ChangeDims] is idempotent: calling it a second time with the
    same dimensions is absorbed, whatever the buffer and the dimensions
    are and however the first call ends. *)
Theorem ChangeDims_idempotent (d : Vector2i) (this : Image) (h : heap) :
  (let* this1 := ChangeDims d this in ChangeDims d this1) h = ChangeDims d this h.
Proof.
  unfold bind at 1.
  destruct (ChangeDims d this h) as [this1 h1| |] eqn:H1; [|done..].
  apply ChangeDims_done in H1 as [Hf Hd]. by apply ChangeDims_skip.
Qed.

(** X7. [ChangeDims(d)] on an allocated buffer, with [d] other than the
    current dimensions and of a product that is a non-negative [int]:
    the old host block is released, and the buffer comes back allocated
    with dimensions [d] on a fresh host block of [x d * y d * sizeof(T)]
    bytes, all of them indeterminate: the old content is gone and the new
    storage is not cleared. *)
Theorem ChangeDims_discards_content (d cur : Vector2i) (this : Image) (h : heap) :
  allocated this h = true →
  noDims this = Some cur →
  Vector2i_ne d cur = true →
  0 <= x d * y d <= INT_MAX →
  ∃ this' h' old,
    ChangeDims d this h = Done this' h'
    ∧ allocated this' h' = true
    ∧ allocateGPU this' = allocateGPU this
    ∧ noDims this' = Some d
    ∧ dataSize this' = Some (x d * y d)
    ∧ data_host this = Some old
    ∧ old ∈ freed h'
    ∧ data_host this' = Some (next_block h)
    ∧ host_bytes this' h' = Some (replicate (Z.to_nat (x d * y d * sizeofT)) None).
Proof.
  intros Ha Hcur Hne Hn.
  pose proof Ha as [Hf Hs]%allocated_storage.
  destruct (storage_host _ _ Hs) as (n & bh & hb & Hh).
  assert (Hbuild : allocateGPU (set_isAllocated false this) = true →
                   COMPILE_WITHOUT_CUDA = false).
  { simpl. intros Hg. by eapply storage_dual_build. }
  assert (HF : ∃ h1, Free this h = Done (set_isAllocated false this) h1
                     ∧ next_block h1 = next_block h
                     ∧ bh ∈ freed h1).
  { destruct (allocateGPU this) eqn:Hg.
    - destruct (storage_dual _ _ n Hs Hg) as (bh' & bd & hb' & db & Hh' & Hd & _);
        [by destruct Hh|].
      assert (bh' = bh) as -> by (destruct Hh, Hh'; congruence).
      eexists. split; [by eapply Free_dual|]. split; [done|]. simpl. by left.
    - eexists. split; [by eapply Free_host_only|]. split; [done|]. simpl. by left. }
  destruct HF as (h1 & HF & Hnext & Hold).
  destruct (Allocate_fresh d (set_isAllocated false this) h1 eq_refl Hn Hbuild)
    as (this' & h' & HA & Hal & Hg & Hd & Hds & Hb & Hfr).
  assert (Hptr : data_host this' = Some (next_block h)).
  { rewrite <- Hnext. destruct (allocateGPU this) eqn:Hgpu.
    - rewrite (Allocate_dual_explicit d (set_isAllocated false this) h1
                 eq_refl Hgpu (Hbuild Hgpu) Hn) in HA.
      by inversion HA.
    - rewrite (Allocate_host_explicit d (set_isAllocated false this) h1
                 eq_refl Hgpu Hn) in HA.
      by inversion HA. }
  exists this', h', bh. split_and!; try done.
  - unfold ChangeDims. rewrite Hcur. simpl read. erewrite bind_done by reflexivity.
    rewrite Hne. simpl. by erewrite bind_done by exact HF.
  - by destruct Hh.
  - by rewrite Hfr.
  - by rewrite Hb, size_bytes_exact.
Qed.

End Lifecycle.

(** ** Transfers, release and the device flag of [SetFrom] *)

Lemma store_block_id (b : positive) (blk : block) (h : heap) :
  live h !! b = Some blk → store_block b blk h = h.
Proof.
  intros Hb. destruct h as [m nx fr]. unfold store_block. simpl in *.
  by rewrite insert_id.
Qed.

Section Transfers.
Context {T : ElemType} {B : Build}.

Lemma allocated_dual (this : Image) (h : heap) :
  allocated this h = true → allocateGPU this = true →
  ∃ n bh bd hb db,
    host_at this h n bh PinnedHost hb ∧ device_at this h n bd db ∧ bh ≠ bd.
Proof.
  intros [_ Hs]%allocated_storage Hg.
  destruct (storage_host _ _ Hs) as (n & bh0 & hb0 & Hh0).
  destruct (storage_dual _ _ n Hs Hg) as (bh & bd & hb & db & Hh & Hd & Hne);
    [by destruct Hh0|].
  eauto 10.
Qed.

(** X8. [UpdateDeviceFromHost] on an allocated dual-domain buffer returns
    normally; afterwards the device block holds what the host block
    holds, the host block is as before and the buffer is still
    allocated.  A following [UpdateHostFromDevice] changes nothing. *)
Theorem UpdateDeviceFromHost_makes_coherent (this : Image) (h : heap) :
  allocated this h = true →
  allocateGPU this = true →
  ∃ h' hb,
    UpdateDeviceFromHost this h = Done tt h'
    ∧ host_bytes this h = Some hb
    ∧ host_bytes this h' = Some hb
    ∧ device_bytes this h' = Some hb
    ∧ allocated this h' = true
    ∧ UpdateHostFromDevice this h' = Done tt h'.
Proof.
  intros Ha Hg.
  destruct (allocated_dual _ _ Ha Hg) as (n & bh & bd & hb & db & Hh & Hd & Hne).
  apply allocated_storage in Ha as [Hf Hs].
  assert (Hlen : length hb = length db) by (destruct Hh, Hd; lia).
  pose proof (device_at_store_same hb Hd Hlen) as Hd1.
  pose proof (host_at_store_other bd (Block DeviceMem hb) Hh (not_eq_sym Hne)) as Hh1.
  eexists _, hb. split_and!.
  - by eapply UpdateDeviceFromHost_done.
  - apply (host_at_bytes Hh).
  - apply (host_at_bytes Hh1).
  - apply (device_at_bytes Hd1).
  - unfold allocated. rewrite Hf. simpl.
    erewrite storage_store; [done|by apply Hd|done|done].
  - rewrite (UpdateHostFromDevice_done _ _ _ _ _ _ _ _ Hh1 Hd1 Hg).
    f_equal. apply store_block_id. by destruct Hh1.
Qed.

(** X9. [UpdateHostFromDevice] on an allocated dual-domain buffer returns
    normally; afterwards the host block holds what the device block
    holds, the device block is as before and the buffer is still
    allocated.  A following [UpdateDeviceFromHost] changes nothing. *)
Theorem UpdateHostFromDevice_makes_coherent (this : Image) (h : heap) :
  allocated this h = true →
  allocateGPU this = true →
  ∃ h' db,
    UpdateHostFromDevice this h = Done tt h'
    ∧ device_bytes this h = Some db
    ∧ device_bytes this h' = Some db
    ∧ host_bytes this h' = Some db
    ∧ allocated this h' = true
    ∧ UpdateDeviceFromHost this h' = Done tt h'.
Proof.
  intros Ha Hg.
  destruct (allocated_dual _ _ Ha Hg) as (n & bh & bd & hb & db & Hh & Hd & Hne).
  apply allocated_storage in Ha as [Hf Hs].
  assert (Hlen : length db = length hb) by (destruct Hh, Hd; lia).
  pose proof (host_at_store_same db Hh Hlen) as Hh1.
  pose proof (device_at_store_other bh (Block PinnedHost db) Hd Hne) as Hd1.
  eexists _, db. split_and!.
  - by eapply UpdateHostFromDevice_done.
  - apply (device_at_bytes Hd).
  - apply (device_at_bytes Hd1).
  - apply (host_at_bytes Hh1).
  - unfold allocated. rewrite Hf. simpl.
    erewrite storage_store; [done|by apply Hh|done|done].
  - rewrite (UpdateDeviceFromHost_done _ _ _ _ _ _ _ _ Hh1 Hd1 Hg).
    f_equal. apply store_block_id. by destruct Hd1.
Qed.

(** X10. On an allocated dual-domain buffer whose two blocks hold the
    same bytes, a transfer in either direction returns normally and
    leaves the heap exactly as it is. *)
Theorem transfers_keep_equal_blocks (this : Image) (h : heap) :
  allocated this h = true →
  allocateGPU this = true →
  host_bytes this h = device_bytes this h →
  UpdateDeviceFromHost this h = Done tt h
  ∧ UpdateHostFromDevice this h = Done tt h.
Proof.
  intros Ha Hg Heq.
  destruct (allocated_dual _ _ Ha Hg) as (n & bh & bd & hb & db & Hh & Hd & Hne).
  rewrite (proj2 (host_at_bytes Hh)), (proj2 (device_at_bytes Hd)) in Heq.
  inversion Heq; subst. split.
  - rewrite (UpdateDeviceFromHost_done _ _ _ _ _ _ _ _ Hh Hd Hg).
    f_equal. apply store_block_id. by destruct Hd.
  - rewrite (UpdateHostFromDevice_done _ _ _ _ _ _ _ _ Hh Hd Hg).
    f_equal. apply store_block_id. by destruct Hh.
Qed.

(** X11. [Free] on an allocated buffer returns normally and clears the
    flag, and nothing else of the object: the dimensions, the element
    count and both pointers stay, and the pointers now dangle, since the
    blocks they name are no longer live.  A [Clear] after it has
    undefined behaviour.  Blocks that the buffer does not point to are
    left as they are. *)
Theorem Free_leaves_dangling_pointers (this : Image) (h : heap) :
  allocated this h = true →
  ∃ this' h',
    Free this h = Done this' h'
    ∧ isAllocated this' = false
    ∧ noDims this' = noDims this
    ∧ dataSize this' = dataSize this
    ∧ data_host this' = data_host this
    ∧ data_device this' = data_device this
    ∧ is_Some (data_host this')
    ∧ host_block this' h' = None
    ∧ (allocateGPU this = true →
       is_Some (data_device this') ∧ device_block this' h' = None)
    ∧ (∀ v, Clear v this' h' = Undefined)
    ∧ ∀ b, Some b ≠ data_host this → Some b ≠ data_device this →
           live h' !! b = live h !! b.
Proof.
  intros Ha. pose proof Ha as [Hf Hs]%allocated_storage.
  assert (HClear : ∀ h' bh n,
            data_host this = Some bh → dataSize this = Some n →
            live h' !! bh = None →
            ∀ v, Clear v (set_isAllocated false this) h' = Undefined).
  { intros h' bh n Hp Hn Hgone v. unfold Clear. simpl. rewrite Hp, Hn. simpl read.
    unfold bind at 1. do 2 erewrite bind_done by reflexivity.
    unfold memset, set_mem. by rewrite Hgone. }
  destruct (allocateGPU this) eqn:Hg.
  - destruct (allocated_dual _ _ Ha Hg) as (n & bh & bd & hb & db & Hh & Hd & Hne).
    pose proof (Free_dual _ _ _ _ _ _ _ Hf Hg Hh Hd) as HF.
    destruct Hh as [Hn Hp Hb _ _]. destruct Hd as [_ _ Hpd Hbd _].
    eexists _, _. split; [exact HF|]. simpl.
    unfold host_block, device_block, GetData, deref. simpl. rewrite Hp, Hpd. simpl.
    split_and!; try done.
    + apply lookup_delete_eq.
    + intros _. split; [done|]. rewrite lookup_delete_ne by done.
      apply lookup_delete_eq.
    + eapply (HClear _ bh n); [done..|]. simpl. apply lookup_delete_eq.
    + intros b Hb1 Hb2. rewrite !lookup_delete_ne; [done|congruence..].
  - destruct (storage_host _ _ Hs) as (n & bh & hb & Hh). rewrite Hg in Hh.
    pose proof (Free_host_only _ _ _ _ _ Hf Hg Hh) as HF.
    destruct Hh as [Hn Hp Hb _ _].
    eexists _, _. split; [exact HF|]. simpl.
    unfold host_block, GetData, deref. simpl. rewrite Hp. simpl.
    split_and!; try done.
    + apply lookup_delete_eq.
    + eapply (HClear _ bh n); [done..|]. simpl. apply lookup_delete_eq.
    + intros b Hb1 Hb2. rewrite lookup_delete_ne; [done|congruence].
Qed.

(** X12. [SetFrom] tests [copyDevice] alone before the device copy, not
    [allocateGPU]: in a build with CUDA, when the destination or the
    source has no device pointer, as every host-only image has, a call
    with [copyDevice] set has undefined behaviour, whatever [copyHost]
    is. *)
Theorem SetFrom_device_copy_is_unguarded (source this : Image)
    (copyHost : bool) (h : heap) :
  COMPILE_WITHOUT_CUDA = false →
  data_device this = None ∨ data_device source = None →
  SetFrom source copyHost true this h = Undefined.
Proof.
  intros Hc Hnone. unfold SetFrom. rewrite Hc.
  assert (Hdev : ∀ h1,
            (let* dst := read (data_device this) in
             let* src := read (data_device source) in
             let* n := read (dataSize source) in
             cudaMemcpy dst src (size_bytes n) cudaMemcpyDeviceToDevice) h1
            = Undefined).
  { intros h1. destruct Hnone as [-> | Hn]; [done|].
    destruct (data_device this); [|done]. simpl read.
    erewrite bind_done by reflexivity. by rewrite Hn. }
  match goal with
  | |- (?m ;;; _) h = _ => destruct (m h) as [[] h1| |] eqn:E
  end.
  - rewrite (bind_done _ _ _ _ _ E). apply Hdev.
  - exfalso. revert E. destruct copyHost; [|done].
    destruct (data_host this) as [dst|]; [|done]. simpl read.
    erewrite bind_done by reflexivity.
    destruct (data_host source) as [src|]; [|done]. simpl read.
    erewrite bind_done by reflexivity.
    destruct (dataSize source) as [n|]; [|done]. simpl read.
    erewrite bind_done by reflexivity.
    unfold memcpy, copy_mem. repeat case_match; done.
  - unfold bind at 1. by rewrite E.
Qed.

End Transfers.

(** ** What a call can reach *)

Lemma bind_assoc {A C D} (m : M A) (k : A → M C) (k' : C → M D) (h : heap) :
  bind (bind m k) k' h = bind m (λ a, bind (k a) k') h.
Proof. unfold bind. by destruct (m h). Qed.

Lemma release_inv (s : space) (b : positive) (h h' : heap) :
  release s b h = Done tt h' →
  h' = {| live := delete b (live h);
          next_block := next_block h;
          freed := b :: freed h |}.
Proof.
  unfold release. destruct (live h !! b) as [blk|]; [|done].
  destruct (space_eqb (blk_space blk) s); [|done]. by inversion 1.
Qed.

Lemma heap_ok_live (h : heap) (b : positive) (blk : block) :
  heap_ok h = true → live h !! b = Some blk → (b < next_block h)%positive.
Proof.
  unfold heap_ok. intros Hok Hb.
  rewrite forallb_forall in Hok.
  specialize (Hok (b, blk)). simpl in Hok.
  apply Pos.ltb_lt, Hok, list_elem_of_In, elem_of_map_to_list. done.
Qed.

Lemma heap_ok_fresh (h : heap) (b : positive) :
  heap_ok h = true → (next_block h <= b)%positive → live h !! b = None.
Proof.
  intros Hok Hb. destruct (live h !! b) as [blk|] eqn:E; [|done].
  pose proof (heap_ok_live _ _ _ Hok E). lia.
Qed.

Lemma only_writes_refl (this : Image) (h : heap) : only_writes this h h.
Proof. by split_and!. Qed.

Lemma only_writes_trans (this : Image) (h1 h2 h3 : heap) :
  only_writes this h1 h2 → only_writes this h2 h3 → only_writes this h1 h3.
Proof.
  intros (Hn1 & Hf1 & Hd1 & Hb1) (Hn2 & Hf2 & Hd2 & Hb2). split_and!.
  - congruence.
  - congruence.
  - congruence.
  - intros b Hh Hd. by rewrite Hb2, Hb1.
Qed.

Lemma only_writes_store (this : Image) (h : heap) (p : positive) (old new : block) :
  live h !! p = Some old →
  Some p = data_host this ∨ Some p = data_device this →
  only_writes this h (store_block p new h).
Proof.
  intros Hp Hown. split_and!; try done.
  - simpl. apply dom_insert_lookup_L. by rewrite Hp.
  - intros b Hh Hd. apply live_store_ne. destruct Hown; congruence.
Qed.

Section Reach.
Context {T : ElemType} {B : Build}.

Lemma Clear_only_writes (v : byte) (this : Image) (h h' : heap) :
  Clear v this h = Done tt h' → only_writes this h h'.
Proof.
  unfold Clear. intros ([] & h1 & Hhost & Hdev)%bind_inv.
  apply bind_inv in Hhost as (p & ? & [Hp ->]%read_inv & Hhost).
  apply bind_inv in Hhost as (n & ? & [_ ->]%read_inv & Hhost).
  apply set_mem_inv in Hhost as (blk & Hb & _ & ->).
  eapply only_writes_trans; [by eapply only_writes_store; [|left]|].
  destruct COMPILE_WITHOUT_CUDA; [inversion Hdev; apply only_writes_refl|].
  destruct (allocateGPU this); [|inversion Hdev; apply only_writes_refl].
  apply bind_inv in Hdev as (pd & ? & [Hpd ->]%read_inv & Hdev).
  apply bind_inv in Hdev as (nd & ? & [_ ->]%read_inv & Hdev).
  apply set_mem_inv in Hdev as (blkd & Hbd & _ & ->).
  by eapply only_writes_store; [|right].
Qed.

Lemma copy_mem_only_writes (dok sok : space → bool) (dst src : positive) (n : Z)
    (this : Image) (h h' : heap) :
  copy_mem dok sok dst src n h = Done tt h' →
  Some dst = data_host this ∨ Some dst = data_device this →
  only_writes this h h'.
Proof.
  intros (d & s & Hd & _ & _ & ->)%copy_mem_inv Hown.
  by eapply only_writes_store.
Qed.

Lemma UpdateDeviceFromHost_only_writes (this : Image) (h h' : heap) :
  UpdateDeviceFromHost this h = Done tt h' → only_writes this h h'.
Proof.
  unfold UpdateDeviceFromHost.
  destruct COMPILE_WITHOUT_CUDA; [inversion 1; apply only_writes_refl|].
  destruct (allocateGPU this); [|inversion 1; apply only_writes_refl].
  intros (pd & ? & [Hpd ->]%read_inv & H)%bind_inv.
  apply bind_inv in H as (ph & ? & [_ ->]%read_inv & H).
  apply bind_inv in H as (n & ? & [_ ->]%read_inv & H).
  eapply copy_mem_only_writes; [exact H|by right].
Qed.

Lemma UpdateHostFromDevice_only_writes (this : Image) (h h' : heap) :
  UpdateHostFromDevice this h = Done tt h' → only_writes this h h'.
Proof.
  unfold UpdateHostFromDevice.
  destruct COMPILE_WITHOUT_CUDA; [inversion 1; apply only_writes_refl|].
  destruct (allocateGPU this); [|inversion 1; apply only_writes_refl].
  intros (ph & ? & [Hph ->]%read_inv & H)%bind_inv.
  apply bind_inv in H as (pd & ? & [_ ->]%read_inv & H).
  apply bind_inv in H as (n & ? & [_ ->]%read_inv & H).
  eapply copy_mem_only_writes; [exact H|by left].
Qed.

Lemma SetFrom_only_writes (source this : Image) (copyHost copyDevice : bool)
    (h h' : heap) :
  SetFrom source copyHost copyDevice this h = Done tt h' → only_writes this h h'.
Proof.
  unfold SetFrom. intros ([] & h1 & Hhost & Hdev)%bind_inv.
  assert (H1 : only_writes this h h1).
  { destruct copyHost; [|inversion Hhost; apply only_writes_refl].
    apply bind_inv in Hhost as (dst & ? & [Hdst ->]%read_inv & Hhost).
    apply bind_inv in Hhost as (src & ? & [_ ->]%read_inv & Hhost).
    apply bind_inv in Hhost as (n & ? & [_ ->]%read_inv & Hhost).
    eapply copy_mem_only_writes; [exact Hhost|by left]. }
  eapply only_writes_trans; [exact H1|].
  destruct COMPILE_WITHOUT_CUDA; [inversion Hdev; apply only_writes_refl|].
  destruct copyDevice; [|inversion Hdev; apply only_writes_refl].
  apply bind_inv in Hdev as (dst & ? & [Hdst ->]%read_inv & Hdev).
  apply bind_inv in Hdev as (src & ? & [_ ->]%read_inv & Hdev).
  apply bind_inv in Hdev as (n & ? & [_ ->]%read_inv & Hdev).
  eapply copy_mem_only_writes; [exact Hdev|by right].
Qed.

Lemma content_calls_only_write_own_blocks_aux (c : call) (this this' : Image)
    (h h' : heap) :
  content_call c = true →
  perform c this h = Done this' h' →
  this' = this ∧ only_writes this h h'.
Proof.
  destruct c; try done; simpl; intros _ ([] & h1 & Hc & Hr)%bind_inv;
    unfold ret in Hr; inversion Hr; subst; (split; [done|]).
  - by eapply Clear_only_writes.
  - by eapply UpdateDeviceFromHost_only_writes.
  - by eapply UpdateHostFromDevice_only_writes.
  - by eapply SetFrom_only_writes.
Qed.

(** X13. [Clear], the two transfers and [SetFrom] work on content only:
    when such a call returns, no data member of the image has changed,
    nothing was allocated or released, the same blocks are live, and
    every block that the image does not point to holds what it held. *)
Theorem content_calls_only_write_own_blocks (c : call) (this this' : Image)
    (h h' : heap) :
  content_call c = true →
  perform c this h = Done this' h' →
  this' = this ∧ only_writes this h h'.
Proof. apply content_calls_only_write_own_blocks_aux. Qed.

End Reach.

(** ** What histories of calls can reach *)

Lemma alloc_inv (s : space) (size : Z) (h h' : heap) (p : positive) :
  alloc s size h = Done p h' →
  p = next_block h
  ∧ h' = {| live := <[next_block h := Block s (replicate (Z.to_nat size) None)]> (live h);
            next_block := Pos.succ (next_block h);
            freed := freed h |}.
Proof. unfold alloc. by inversion 1. Qed.

Section HistoryReach.
Context {T : ElemType} {B : Build}.

Lemma Allocate_reach (nx : positive) (d : Vector2i) (this this' : Image) (h h' : heap) :
  Allocate d this h = Done this' h' →
  fresh_ptrs nx this → (nx <= next_block h)%positive →
  fresh_ptrs nx this'
  ∧ (next_block h <= next_block h')%positive
  ∧ allocateGPU this' = allocateGPU this
  ∧ ∀ b, (b < next_block h)%positive → live h' !! b = live h !! b.
Proof.
  intros HA [Hfh Hfd] Hnx. destruct (isAllocated this) eqn:Hf.
  { rewrite Allocate_absorbed in HA by done. inversion HA; subst.
    split; [done|]. split; [lia|]. done. }
  unfold Allocate in HA. apply bind_inv in HA as (a & h1 & Hin & Hret).
  unfold ret in Hret. inversion Hret; subst. clear Hret.
  rewrite Hf in Hin. simpl in Hin.
  apply bind_inv in Hin as (n & h2 & Hmul & Hrest).
  unfold int_mul in Hmul. destruct (in_int (x d * y d)); [|done].
  unfold ret in Hmul. inversion Hmul; subst. clear Hmul.
  destruct (allocateGPU this) eqn:Hg; [destruct COMPILE_WITHOUT_CUDA|].
  - unfold ret in Hrest. inversion Hrest; subst.
    split; [done|]. split; [lia|]. done.
  - apply bind_inv in Hrest as (ph & h3 & Hph & Hrest).
    apply bind_inv in Hrest as (pd & h4 & Hpd & Hrest).
    unfold ret in Hrest. inversion Hrest; subst. clear Hrest.
    unfold cudaMallocHost, cudaMalloc in *.
    destruct (size_bytes (x d * y d) <=? PTRDIFF_MAX); [|done].
    apply alloc_inv in Hph as [-> ->]. apply alloc_inv in Hpd as [-> ->]. simpl.
    split; [|split; [lia|split; [done|]]].
    + split; simpl; intros p; inversion 1; subst; lia.
    + intros b Hb. rewrite !lookup_insert_ne by lia. done.
  - apply bind_inv in Hrest as (ph & h3 & Hph & Hrest).
    unfold ret in Hrest. inversion Hrest; subst. clear Hrest.
    unfold new_array in Hph. destruct (x d * y d <? 0); [done|].
    apply alloc_inv in Hph as [-> ->]. simpl.
    split; [|split; [lia|split; [done|]]].
    + split; simpl; [intros p; inversion 1; subst; lia|done].
    + intros b Hb. rewrite lookup_insert_ne by lia. done.
Qed.

Lemma Free_reach (this this' : Image) (h h' : heap) :
  Free this h = Done this' h' →
  this' = set_isAllocated false this
  ∧ next_block h' = next_block h
  ∧ ∀ b, Some b ≠ data_host this → Some b ≠ data_device this →
         live h' !! b = live h !! b.
Proof.
  intros HF. split; [by eapply Free_members|]. revert HF.
  unfold Free. intros ([] & h1 & Hrel & Hret)%bind_inv.
  unfold ret in Hret. inversion Hret; subst. clear Hret.
  destruct (isAllocated this); [|by inversion Hrel].
  destruct (allocateGPU this); [destruct COMPILE_WITHOUT_CUDA|].
  - by inversion Hrel.
  - apply bind_inv in Hrel as ([] & h2 & Hd & Hh).
    apply bind_inv in Hd as (pd & ? & [Hpd ->]%read_inv & Hd).
    apply bind_inv in Hh as (ph & ? & [Hph ->]%read_inv & Hh).
    apply release_inv in Hd as ->. apply release_inv in Hh as ->. simpl.
    split; [done|]. intros b Hb1 Hb2.
    rewrite !lookup_delete_ne; [done|congruence..].
  - apply bind_inv in Hrel as (ph & ? & [Hph ->]%read_inv & Hh).
    apply release_inv in Hh as ->. simpl.
    split; [done|]. intros b Hb1 Hb2.
    rewrite lookup_delete_ne; [done|congruence].
Qed.

Lemma fresh_ptrs_apart (nx b : positive) (this : Image) :
  fresh_ptrs nx this → (b < nx)%positive →
  Some b ≠ data_host this ∧ Some b ≠ data_device this.
Proof.
  intros [Hh Hd] Hb. split; intros E; symmetry in E.
  - apply Hh in E. lia.
  - apply Hd in E. lia.
Qed.

Lemma perform_reach (nx : positive) (c : call) (this this' : Image) (h h' : heap) :
  perform c this h = Done this' h' →
  fresh_ptrs nx this → (nx <= next_block h)%positive →
  fresh_ptrs nx this'
  ∧ (nx <= next_block h')%positive
  ∧ allocateGPU this' = allocateGPU this
  ∧ ∀ b, (b < nx)%positive → live h' !! b = live h !! b.
Proof.
  intros Hc Hfr Hnx.
  destruct (content_call c) eqn:Hcc.
  { destruct (content_calls_only_write_own_blocks_aux c this this' h h' Hcc Hc)
      as [-> (Hn & _ & _ & Hb)].
    split; [done|]. split; [lia|]. split; [done|].
    intros b Hlt. destruct (fresh_ptrs_apart _ _ _ Hfr Hlt). by apply Hb. }
  destruct c; try done; simpl in Hc.
  - destruct (Allocate_reach nx _ _ _ _ _ Hc Hfr Hnx) as (Hfr' & Hn & Hg & Hb).
    split; [done|]. split; [lia|]. split; [done|].
    intros b Hlt. apply Hb. lia.
  - unfold ChangeDims in Hc.
    apply bind_inv in Hc as (cur & ? & [_ ->]%read_inv & Hc).
    destruct (Vector2i_ne d cur || negb (isAllocated this)).
    + apply bind_inv in Hc as (this1 & h1 & HF & HA).
      apply Free_reach in HF as (-> & Hn1 & Hb1).
      assert (Hnx1 : (nx <= next_block h1)%positive) by lia.
      destruct (Allocate_reach nx _ _ _ _ _ HA Hfr Hnx1) as (Hfr' & Hn & Hg & Hb).
      split; [done|]. split; [lia|]. split; [done|].
      intros b Hlt. destruct (fresh_ptrs_apart _ _ _ Hfr Hlt).
      rewrite Hb by lia. by apply Hb1.
    + unfold ret in Hc. inversion Hc; subst. done.
  - apply Free_reach in Hc as (-> & Hn1 & Hb1).
    split; [done|]. split; [lia|]. split; [done|].
    intros b Hlt. destruct (fresh_ptrs_apart _ _ _ Hfr Hlt). by apply Hb1.
Qed.

Lemma perform_all_reach (nx : positive) (cs : list call) (this this' : Image)
    (h h' : heap) :
  perform_all cs this h = Done this' h' →
  fresh_ptrs nx this → (nx <= next_block h)%positive →
  allocateGPU this' = allocateGPU this
  ∧ ∀ b, (b < nx)%positive → live h' !! b = live h !! b.
Proof.
  revert this h. induction cs as [|c cs IH]; intros this h; simpl.
  - unfold ret. inversion 1; subst. done.
  - intros (this1 & h1 & Hc & Hcs)%bind_inv Hfr Hnx.
    destruct (perform_reach nx _ _ _ _ _ Hc Hfr Hnx) as (Hfr1 & Hnx1 & Hg1 & Hb1).
    destruct (IH _ _ Hcs Hfr1 Hnx1) as (Hg & Hb).
    split; [congruence|]. intros b Hlt. by rewrite Hb, Hb1.
Qed.

End HistoryReach.

(** ** Histories from the two constructors *)

Section Constructed.
Context {T : ElemType} {B : Build}.

(** The constructor [Image(noDims, allocateGPU)] followed by calls is a
    history on the raw object that starts with [Allocate] and
    [Clear()]. *)
Lemma ctor_dims_as_history (d : Vector2i) (g : bool) (cs : list call) (h : heap) :
  (let* t := Image_ctor_dims d g in perform_all cs t) h
  = perform_all (CallAllocate d :: CallClear x00 :: cs) (Image_raw g) h.
Proof.
  unfold Image_ctor_dims. simpl perform_all. simpl perform.
  rewrite bind_assoc. reflexivity.
Qed.

Lemma perform_all_wf (cs : list call) (this this' : Image) (h h' : heap) :
  perform_all cs this h = Done this' h' → wf this h = true → wf this' h' = true.
Proof.
  revert this h. induction cs as [|c cs IH]; intros this h; simpl.
  - unfold ret. by inversion 1; subst.
  - intros (this1 & h1 & Hc & Hcs)%bind_inv Hwf.
    eapply IH; [exact Hcs|]. by eapply perform_wf.
Qed.

Lemma perform_keeps_dims_agree (c : call) (this this' : Image) (h h' : heap) :
  perform c this h = Done this' h' → dims_agree this = true → dims_agree this' = true.
Proof.
  intros Hc Hd. destruct c; simpl in Hc.
  - eapply Allocate_dims_agree; [exact Hc|by right].
  - by apply bind_ret_inv in Hc as ->.
  - eapply ChangeDims_dims_agree; [exact Hc|by right].
  - by apply bind_ret_inv in Hc as ->.
  - by apply bind_ret_inv in Hc as ->.
  - by apply bind_ret_inv in Hc as ->.
  - by apply Free_members in Hc as ->.
Qed.

Lemma perform_all_keeps_dims_agree (cs : list call) (this this' : Image) (h h' : heap) :
  perform_all cs this h = Done this' h' → dims_agree this = true → dims_agree this' = true.
Proof.
  revert this h. induction cs as [|c cs IH]; intros this h; simpl.
  - unfold ret. by inversion 1; subst.
  - intros (this1 & h1 & Hc & Hcs)%bind_inv Hd.
    eapply IH; [exact Hcs|]. by eapply perform_keeps_dims_agree.
Qed.

(** X14. Calls on an image leave the rest of the heap alone.  In a heap
    in which every live block was handed out before, take any block that
    is live when an image is constructed, by either constructor; after
    any history of calls on the image that returns, that block is still
    live and holds exactly what it held. *)
Theorem history_leaves_other_blocks (cs : list call) (d : Vector2i) (g : bool)
    (this : Image) (h h' : heap) (b : positive) (blk : block) :
  heap_ok h = true →
  live h !! b = Some blk →
  perform_all cs (Image_ctor g) h = Done this h'
  ∨ (let* t := Image_ctor_dims d g in perform_all cs t) h = Done this h' →
  live h' !! b = Some blk.
Proof.
  intros Hok Hb Hrun.
  pose proof (heap_ok_live _ _ _ Hok Hb) as Hlt.
  assert (Hfresh : ∀ this0, data_host this0 = None → data_device this0 = None →
                            fresh_ptrs (next_block h) this0).
  { intros this0 H1 H2. split; intros p; by rewrite ?H1, ?H2. }
  destruct Hrun as [Hrun | Hrun].
  - destruct (perform_all_reach (next_block h) _ _ _ _ _ Hrun) as [_ Hframe];
      [by apply Hfresh|lia|].
    by rewrite Hframe.
  - rewrite ctor_dims_as_history in Hrun.
    destruct (perform_all_reach (next_block h) _ _ _ _ _ Hrun) as [_ Hframe];
      [by apply Hfresh|lia|].
    by rewrite Hframe.
Qed.

(** X15. The class invariant holds in every state that a history of
    calls reaches from either constructor: whatever [Free] would release
    is live and of the recorded size.  So in a build that supports the
    domain mode, a buffer whose flag is set has its storage. *)
Theorem history_keeps_class_invariant (cs : list call) (d : Vector2i) (g : bool)
    (this : Image) (h h' : heap) :
  perform_all cs (Image_ctor g) h = Done this h'
  ∨ (let* t := Image_ctor_dims d g in perform_all cs t) h = Done this h' →
  wf this h' = true
  ∧ (isAllocated this = true →
     (allocateGPU this = true → COMPILE_WITHOUT_CUDA = false) →
     allocated this h' = true).
Proof.
  intros Hrun.
  assert (Hwf : wf this h' = true).
  { destruct Hrun as [Hrun | Hrun].
    - eapply perform_all_wf; [exact Hrun|]. by apply unallocated_wf.
    - rewrite ctor_dims_as_history in Hrun.
      eapply perform_all_wf; [exact Hrun|]. by apply unallocated_wf. }
  split; [done|]. intros Hf Hb. by apply wf_allocated.
Qed.

(** X16. The domain mode is fixed: no history of calls changes
    [allocateGPU], whatever image it starts from. *)
Theorem history_keeps_allocateGPU (cs : list call) (this this' : Image) (h h' : heap) :
  perform_all cs this h = Done this' h' →
  allocateGPU this' = allocateGPU this.
Proof.
  intros Hrun.
  destruct (perform_all_reach 1%positive _ _ _ _ _ Hrun) as [Hg _]; [|lia|done].
  split; intros p _; lia.
Qed.

(** X17. [dataSize] is the product of the dimensions in every state in
    which storage was ever allocated: in every state that a history
    reaches from the constructor [Image(noDims, allocateGPU)], released
    or not, and in every state with the flag set that a history reaches
    from the constructor [Image(allocateGPU)]. *)
Theorem history_keeps_dataSize (cs : list call) (d : Vector2i) (g : bool)
    (this : Image) (h h' : heap) :
  (perform_all cs (Image_ctor g) h = Done this h' ∧ isAllocated this = true)
  ∨ (let* t := Image_ctor_dims d g in perform_all cs t) h = Done this h' →
  ∃ dims n, noDims this = Some dims ∧ dataSize this = Some n ∧ n = x dims * y dims.
Proof.
  intros Hrun.
  assert (Hd : dims_agree this = true).
  { destruct Hrun as [[Hrun Hf] | Hrun].
    - apply perform_all_dims_inv in Hrun as [?|Hu]; [done| |by right].
      by rewrite Hf in Hu.
    - rewrite ctor_dims_as_history in Hrun. simpl in Hrun.
      apply bind_inv in Hrun as (this1 & h1 & HA & Hrest).
      eapply perform_all_keeps_dims_agree with (cs := CallClear x00 :: cs);
        [exact Hrest|].
      eapply Allocate_dims_agree; [exact HA|by left]. }
  unfold dims_agree in Hd.
  destruct (noDims this) as [dims|]; [|done].
  destruct (dataSize this) as [n|]; [|done].
  exists dims, n. split_and!; [done..|]. by apply Z.eqb_eq.
Qed.

(** X18. Construction and destruction balance.  In a heap in which every
    live block was handed out before, the constructor
    [Image(noDims, allocateGPU)] followed by the destructor returns
    normally and leaves exactly the blocks live that were live before:
    the destructor releases the one block of a host-only image and the
    two blocks of a dual-domain image. *)
Theorem construct_destroy_balanced (d : Vector2i) (g : bool) (h : heap) :
  heap_ok h = true →
  0 <= x d * y d <= INT_MAX →
  (g = true → COMPILE_WITHOUT_CUDA = false) →
  ∃ this h1 h2,
    Image_ctor_dims d g h = Done this h1
    ∧ Image_dtor this h1 = Done (set_isAllocated false this) h2
    ∧ live h2 = live h
    ∧ length (freed h2) = (length (freed h) + (if g then 2 else 1))%nat.
Proof.
  intros Hok Hn Hb. unfold Image_ctor_dims, Image_dtor.
  change {| allocateGPU := g; isAllocated := false; data_host := None;
            data_device := None; noDims := None; dataSize := None |}
    with (Image_raw g).
  destruct (Allocate_fresh d (Image_raw g) h eq_refl Hn Hb)
    as (this & h0 & HA & Hal & Hg & Hd & Hs & _ & Hfr0).
  simpl in Hg.
  pose proof Hal as [Hf Hst]%allocated_storage.
  destruct (Clear_storage x00 this h0 _ Hst Hs) as (h1 & HC & Hst1 & _ & _).
  pose proof (Clear_only_writes _ _ _ _ HC) as (Hnx1 & Hfr1 & _ & Hframe1).
  pose proof (heap_ok_fresh h (next_block h) Hok (Pos.le_refl _)) as Hfresh1.
  assert (Hfresh2 : live h !! Pos.succ (next_block h) = None).
  { apply heap_ok_fresh; [done|lia]. }
  destruct g.
  - pose proof (Allocate_dual_explicit d (Image_raw true) h eq_refl eq_refl
                  (Hb eq_refl) Hn) as HE.
    rewrite HE in HA. inversion HA; subst this h0. clear HA.
    destruct (storage_dual _ _ _ Hst1 eq_refl eq_refl)
      as (bh & bd & hb & db & Hh & Hdv & Hne).
    assert (bh = next_block h) as -> by (destruct Hh as [_ Hp _ _ _]; by inversion Hp).
    assert (bd = Pos.succ (next_block h)) as ->
      by (destruct Hdv as [_ _ Hp _ _]; by inversion Hp).
    eexists _, h1, _. split_and!.
    + erewrite bind_done by exact HE. by erewrite bind_done by exact HC.
    + eapply Free_dual; [done|done|exact Hh|exact Hdv].
    + simpl. apply map_eq. intros i.
      destruct (decide (i = next_block h)) as [->|Hi1].
      { by rewrite lookup_delete_eq. }
      rewrite lookup_delete_ne by done.
      destruct (decide (i = Pos.succ (next_block h))) as [->|Hi2].
      { by rewrite lookup_delete_eq. }
      rewrite lookup_delete_ne by done.
      rewrite Hframe1 by (simpl; congruence). simpl.
      by rewrite !lookup_insert_ne.
    + simpl. rewrite Hfr1. simpl. lia.
  - pose proof (Allocate_host_explicit d (Image_raw false) h eq_refl eq_refl Hn) as HE.
    rewrite HE in HA. inversion HA; subst this h0. clear HA.
    destruct (storage_host _ _ Hst1) as (n & bh & hb & Hh). simpl in Hh.
    assert (bh = next_block h) as -> by (destruct Hh as [_ Hp _ _ _]; by inversion Hp).
    eexists _, h1, _. split_and!.
    + erewrite bind_done by exact HE. by erewrite bind_done by exact HC.
    + eapply Free_host_only; [done|done|exact Hh].
    + simpl. apply map_eq. intros i.
      destruct (decide (i = next_block h)) as [->|Hi1].
      { by rewrite lookup_delete_eq. }
      rewrite lookup_delete_ne by done.
      rewrite Hframe1 by (simpl; congruence). simpl.
      by rewrite lookup_insert_ne.
    + simpl. rewrite Hfr1. simpl. lia.
Qed.

End Constructed.

(** ** Buffers without storage *)

Section Unallocated.
Context {T : ElemType} {B : Build}.

Lemma Allocate_pointers (d : Vector2i) (this this' : Image) (h h' : heap) :
  Allocate d this h = Done this' h' →
  allocateGPU this' = allocateGPU this
  ∧ (allocateGPU this = false → data_device this' = data_device this)
  ∧ (allocateGPU this = true → COMPILE_WITHOUT_CUDA = true →
     data_host this' = data_host this ∧ data_device this' = data_device this).
Proof.
  intros HA. destruct (isAllocated this) eqn:Hf.
  { rewrite Allocate_absorbed in HA by done. by inversion HA; subst. }
  unfold Allocate in HA. apply bind_inv in HA as (a & h1 & Hin & Hret).
  unfold ret in Hret. inversion Hret; subst. clear Hret.
  rewrite Hf in Hin. simpl in Hin.
  apply bind_inv in Hin as (n & h2 & Hmul & Hrest).
  destruct (allocateGPU this) eqn:Hg; [destruct COMPILE_WITHOUT_CUDA|].
  - unfold ret in Hrest. inversion Hrest; subst. done.
  - apply bind_inv in Hrest as (ph & h3 & Hph & Hrest).
    apply bind_inv in Hrest as (pd & h4 & Hpd & Hrest).
    unfold ret in Hrest. inversion Hrest; subst. done.
  - apply bind_inv in Hrest as (ph & h3 & Hph & Hrest).
    unfold ret in Hrest. inversion Hrest; subst. done.
Qed.

Lemma deref_same_dom (h h' : heap) (p : option positive) :
  dom (live h') = dom (live h) → deref h p = None → deref h' p = None.
Proof.
  intros Hdom. destruct p as [b|]; [|done]. simpl.
  rewrite <- !not_elem_of_dom. by rewrite Hdom.
Qed.

Lemma Free_no_stale_storage (this this' : Image) (h h' : heap) :
  Free this h = Done this' h' →
  wf this h = true → no_stale_storage this h → no_stale_storage this' h'.
Proof.
  intros HF Hwf (Hb & Hc & Ha).
  destruct (isAllocated this) eqn:Hf.
  2:{ rewrite Free_unallocated in HF by done. inversion HF; subst.
      split_and!; [done..|]. intros _. by apply Ha. }
  unfold wf in Hwf. rewrite Hf in Hwf. simpl in Hwf.
  apply orb_true_iff in Hwf as [[Hg Hnc]%andb_true_iff | Hst].
  - rewrite Free_without_cuda in HF by done. inversion HF; subst.
    destruct (Hc Hg Hnc) as [Hh Hd].
    split_and!; [done..|]. intros _. simpl. by rewrite Hh, Hd.
  - destruct (allocateGPU this) eqn:Hg.
    + destruct (storage_host _ _ Hst) as (n & ? & ? & Hn). destruct Hn as [Hn _ _ _ _].
      destruct (storage_dual _ _ _ Hst Hg Hn) as (bh & bd & hb & db & Hh & Hd & Hne).
      rewrite (Free_dual _ _ _ _ _ _ _ Hf Hg Hh Hd) in HF. inversion HF; subst.
      destruct Hh as [_ Hp _ _ _]. destruct Hd as [Hbuild _ Hpd _ _].
      split_and!.
      * simpl. by rewrite Hg.
      * simpl. intros _ Hnc. by rewrite Hbuild in Hnc.
      * intros _. simpl. rewrite Hp, Hpd. simpl. split.
        -- apply lookup_delete_eq.
        -- rewrite lookup_delete_ne by done. apply lookup_delete_eq.
    + destruct (storage_host _ _ Hst) as (n & bh & hb & Hh). rewrite Hg in Hh.
      rewrite (Free_host_only _ _ _ _ _ Hf Hg Hh) in HF. inversion HF; subst.
      destruct Hh as [_ Hp _ _ _].
      split_and!.
      * intros _. simpl. by apply Hb.
      * simpl. by rewrite Hg.
      * intros _. simpl. rewrite Hp, (Hb eq_refl). simpl. split; [|done].
        apply lookup_delete_eq.
Qed.

Lemma Allocate_no_stale_storage (d : Vector2i) (this this' : Image) (h h' : heap) :
  Allocate d this h = Done this' h' →
  no_stale_storage this h → no_stale_storage this' h'.
Proof.
  intros HA (Hb & Hc & Ha).
  pose proof (Allocate_sets_flag _ _ _ _ _ HA) as Hf'.
  destruct (Allocate_pointers _ _ _ _ _ HA) as (Hg & Hpb & Hpc).
  split_and!.
  - rewrite Hg. intros Hgf. rewrite Hpb by done. by apply Hb.
  - rewrite Hg. intros Hgt Hnc. destruct (Hpc Hgt Hnc) as [-> ->]. by apply Hc.
  - by rewrite Hf'.
Qed.

Lemma perform_no_stale_storage (c : call) (this this' : Image) (h h' : heap) :
  perform c this h = Done this' h' →
  wf this h = true → no_stale_storage this h → no_stale_storage this' h'.
Proof.
  intros Hc Hwf Hno.
  destruct (content_call c) eqn:Hcc.
  { destruct (content_calls_only_write_own_blocks_aux c this this' h h' Hcc Hc)
      as [-> (_ & _ & Hdom & _)].
    destruct Hno as (Hb & Hcu & Ha). split_and!; [done..|].
    intros Hf. destruct (Ha Hf). split; by eapply deref_same_dom. }
  destruct c; try done; simpl in Hc.
  - by eapply Allocate_no_stale_storage.
  - unfold ChangeDims in Hc.
    apply bind_inv in Hc as (cur & ? & [_ ->]%read_inv & Hc).
    destruct (Vector2i_ne d cur || negb (isAllocated this)).
    + apply bind_inv in Hc as (this1 & h1 & HF & HA).
      eapply Allocate_no_stale_storage; [exact HA|].
      by eapply Free_no_stale_storage.
    + unfold ret in Hc. by inversion Hc; subst.
  - by eapply Free_no_stale_storage.
Qed.

Lemma perform_all_no_stale_storage (cs : list call) (this this' : Image) (h h' : heap) :
  perform_all cs this h = Done this' h' →
  wf this h = true → no_stale_storage this h → no_stale_storage this' h'.
Proof.
  revert this h. induction cs as [|c cs IH]; intros this h; simpl.
  - unfold ret. by inversion 1; subst.
  - intros (this1 & h1 & Hc & Hcs)%bind_inv Hwf Hno.
    eapply IH; [exact Hcs|by eapply perform_wf|by eapply perform_no_stale_storage].
Qed.

(** X19. No member function guards against a buffer without storage.  In
    every state with the flag clear that a history of calls reaches from
    either constructor, neither pointer names a live block (each is
    unassigned or dangles), and [Clear], with any fill byte, has undefined
    behaviour. *)
Theorem unallocated_buffer_has_no_storage (cs : list call) (d : Vector2i) (g : bool)
    (this : Image) (h h' : heap) :
  perform_all cs (Image_ctor g) h = Done this h'
  ∨ (let* t := Image_ctor_dims d g in perform_all cs t) h = Done this h' →
  isAllocated this = false →
  host_block this h' = None
  ∧ device_block this h' = None
  ∧ ∀ v, Clear v this h' = Undefined.
Proof.
  intros Hrun Hf.
  assert (Hno : no_stale_storage this h').
  { assert (Hstart : ∀ this0, isAllocated this0 = false →
                       data_host this0 = None → data_device this0 = None →
                       no_stale_storage this0 h).
    { intros this0 H0 H1 H2. split_and!; try done. by rewrite H1, H2. }
    destruct Hrun as [Hrun | Hrun].
    - eapply perform_all_no_stale_storage; [exact Hrun|by apply unallocated_wf|].
      by apply Hstart.
    - rewrite ctor_dims_as_history in Hrun.
      eapply perform_all_no_stale_storage; [exact Hrun|by apply unallocated_wf|].
      by apply Hstart. }
  destruct Hno as (_ & _ & Ha). destruct (Ha Hf) as [Hh Hd].
  split; [done|]. split; [done|].
  intros v. unfold Clear. unfold bind at 1.
  destruct (data_host this) as [p|]; [|done]. simpl read.
  erewrite bind_done by reflexivity.
  destruct (dataSize this) as [n|]; [|done]. simpl read.
  erewrite bind_done by reflexivity.
  unfold memset, set_mem. simpl in Hh. by rewrite Hh.
Qed.

End Unallocated.

(** ** The pointers a caller gets *)

Section Pointers.
Context {T : ElemType} {B : Build}.

(** X20. What [GetData] hands out.  In every state with the flag set that
    a history of calls reaches from either constructor, in a build that
    supports the domain mode, [GetData(false)] points to a live block of
    [dataSize * sizeof(T)] bytes that the CPU can address.  For a
    dual-domain image [GetData(true)] points to another live block of
    that size in device memory; for a host-only image [GetData(true)]
    returns a pointer that was never assigned. *)
Theorem GetData_after_history (cs : list call) (d : Vector2i) (g : bool)
    (this : Image) (h h' : heap) :
  perform_all cs (Image_ctor g) h = Done this h'
  ∨ (let* t := Image_ctor_dims d g in perform_all cs t) h = Done this h' →
  isAllocated this = true →
  (g = true → COMPILE_WITHOUT_CUDA = false) →
  ∃ n hb,
    dataSize this = Some n
    ∧ deref h' (GetData false this)
      = Some (Block (if g then PinnedHost else NewArray) hb)
    ∧ Z.of_nat (length hb) = size_bytes n
    ∧ if g
      then ∃ db, deref h' (GetData true this) = Some (Block DeviceMem db)
                 ∧ Z.of_nat (length db) = size_bytes n
                 ∧ GetData true this ≠ GetData false this
      else GetData true this = None.
Proof.
  intros Hrun Hf Hb.
  assert (Hstart : ∃ cs' this0,
            perform_all cs' this0 h = Done this h'
            ∧ allocateGPU this0 = g ∧ isAllocated this0 = false
            ∧ data_host this0 = None ∧ data_device this0 = None).
  { destruct Hrun as [Hrun | Hrun].
    - by exists cs, (Image_ctor g).
    - rewrite ctor_dims_as_history in Hrun.
      by exists (CallAllocate d :: CallClear x00 :: cs), (Image_raw g). }
  destruct Hstart as (cs' & this0 & Hrun' & Hg0 & Hf0 & Hh0 & Hd0).
  assert (Hg : allocateGPU this = g).
  { destruct (perform_all_reach 1%positive _ _ _ _ _ Hrun') as [Hg _];
      [split; intros p _; lia|lia|congruence]. }
  assert (Hwf : wf this h' = true).
  { eapply perform_all_wf; [exact Hrun'|]. by apply unallocated_wf. }
  assert (Hno : no_stale_storage this h').
  { eapply perform_all_no_stale_storage; [exact Hrun'|by apply unallocated_wf|].
    split; [by intros _|]. split; [by intros _ _|].
    intros _. by rewrite Hh0, Hd0. }
  assert (Hal : allocated this h' = true).
  { apply wf_allocated; [done..|]. by rewrite Hg. }
  apply allocated_storage in Hal as [_ Hst].
  destruct (storage_host _ _ Hst) as (n & bh & hb & Hh). rewrite Hg in Hh.
  exists n, hb. unfold GetData.
  split; [by destruct Hh|]. split; [by destruct Hh as [_ -> ? _ _]|].
  split; [by destruct Hh|].
  destruct g.
  - destruct (storage_dual _ _ n Hst Hg) as (bh' & bd & hb' & db & Hh' & Hd & Hne);
      [by destruct Hh|].
    exists db. destruct Hd as [_ _ Hpd Hbd Hld]. destruct Hh' as [_ Hph _ _ _].
    rewrite Hpd, Hph. simpl. split_and!; [done..|]. congruence.
  - destruct Hno as (Hnb & _ & _). by apply Hnb.
Qed.

End Pointers.

(** ** The further properties on worked states *)

Lemma Allocate_gives_uncleared_storage_witness :
  ∃ this' h',
    Allocate (T := float_t) (B := cuda_build) (mkVector2i 3 2) (Image_ctor true) empty_heap
    = Done this' h'
    ∧ allocated (T := float_t) (B := cuda_build) this' h' = true
    ∧ host_bytes this' h' = Some (replicate 24 None)
    ∧ device_bytes this' h' = Some (replicate 24 None).
Proof.
  destruct (Allocate_gives_uncleared_storage (T := float_t) (B := cuda_build)
              (mkVector2i 3 2) (Image_ctor true) empty_heap)
    as (this' & h' & HA & Hal & _ & _ & _ & _ & Hh & Hd & _).
  - reflexivity.
  - unfold INT_MAX. simpl. lia.
  - reflexivity.
  - exists this', h'. split; [exact HA|]. split; [exact Hal|].
    split; [exact Hh|]. exact (Hd eq_refl).
Defined.

Lemma Allocate_negative_count_aborts_witness :
  Allocate (T := float_t) (B := cuda_build) (mkVector2i (-1) 5) (Image_ctor true) empty_heap
  = Fatal.
Proof.
  apply (Allocate_negative_count_aborts (T := float_t) (B := cuda_build)
           (mkVector2i (-1) 5) (Image_ctor true) empty_heap).
  - reflexivity.
  - unfold INT_MIN. simpl. lia.
  - reflexivity.
Defined.

Lemma dual_without_cuda_has_no_storage_witness :
  Image_ctor_dims (T := uchar_t) (B := cpu_build) (mkVector2i 4 3) true empty_heap
  = Undefined.
Proof.
  apply (dual_without_cuda_has_no_storage (T := uchar_t) (B := cpu_build)
           (mkVector2i 4 3) empty_heap).
  reflexivity.
Defined.

Lemma Image_ctor_dims_dual_zeroed_witness :
  ∃ this hp',
    Image_ctor_dims (T := float_t) (B := cuda_build) (mkVector2i 2 1) true empty_heap
    = Done this hp'
    ∧ host_bytes this hp' = Some (replicate 8 (Some x00))
    ∧ device_bytes this hp' = Some (replicate 8 (Some x00)).
Proof.
  destruct (Image_ctor_dims_dual_zeroed (T := float_t) (B := cuda_build)
              (mkVector2i 2 1) empty_heap)
    as (this & hp' & HC & _ & _ & _ & _ & Hh & Hd & _).
  - reflexivity.
  - unfold INT_MAX. simpl. lia.
  - exists this, hp'. split; [exact HC|]. split; [exact Hh|exact Hd].
Defined.

Lemma ChangeDims_unallocated_is_Allocate_witness :
  ChangeDims (T := uchar_t) (B := cpu_build) (mkVector2i 0 0) (Image_ctor false) empty_heap
  = Allocate (T := uchar_t) (B := cpu_build) (mkVector2i 0 0) (Image_ctor false) empty_heap.
Proof.
  apply (ChangeDims_unallocated_is_Allocate (T := uchar_t) (B := cpu_build)
           (mkVector2i 0 0) (mkVector2i 0 0) (Image_ctor false) empty_heap);
    reflexivity.
Defined.

Lemma ChangeDims_discards_content_witness :
  ∃ this' h',
    ChangeDims (T := uchar_t) (B := cuda_build) (mkVector2i 3 1) image_a worked_heap
    = Done this' h'
    ∧ dataSize this' = Some 3
    ∧ host_bytes this' h' = Some (replicate 3 None)
    ∧ (1%positive ∈ freed h').
Proof.
  destruct (ChangeDims_discards_content (T := uchar_t) (B := cuda_build)
              (mkVector2i 3 1) (mkVector2i 2 2) image_a worked_heap)
    as (this' & h' & old & HC & _ & _ & _ & Hs & Hold & Hfr & _ & Hb).
  - reflexivity.
  - reflexivity.
  - reflexivity.
  - unfold INT_MAX. simpl. lia.
  - exists this', h'. split; [exact HC|]. split; [exact Hs|]. split; [exact Hb|].
    injection Hold as <-. exact Hfr.
Defined.

Lemma UpdateDeviceFromHost_makes_coherent_witness :
  ∃ h',
    UpdateDeviceFromHost (T := uchar_t) (B := cuda_build) image_a worked_heap = Done tt h'
    ∧ device_bytes image_a h' = Some (bytes_of [x01; x02; x03; x04]).
Proof.
  destruct (UpdateDeviceFromHost_makes_coherent (T := uchar_t) (B := cuda_build)
              image_a worked_heap)
    as (h' & hb & HU & Hh & _ & Hd & _).
  - reflexivity.
  - reflexivity.
  - exists h'. split; [exact HU|]. rewrite Hd, <- Hh. reflexivity.
Defined.

Lemma UpdateHostFromDevice_makes_coherent_witness :
  ∃ h',
    UpdateHostFromDevice (T := uchar_t) (B := cuda_build) image_a worked_heap = Done tt h'
    ∧ host_bytes image_a h' = Some (bytes_of [x11; x12; x13; x14]).
Proof.
  destruct (UpdateHostFromDevice_makes_coherent (T := uchar_t) (B := cuda_build)
              image_a worked_heap)
    as (h' & db & HU & Hd & _ & Hh & _).
  - reflexivity.
  - reflexivity.
  - exists h'. split; [exact HU|]. rewrite Hh, <- Hd. reflexivity.
Defined.

Lemma transfers_keep_equal_blocks_witness :
  UpdateDeviceFromHost (T := uchar_t) (B := cuda_build) image_s settled_heap
  = Done tt settled_heap
  ∧ UpdateHostFromDevice (T := uchar_t) (B := cuda_build) image_s settled_heap
    = Done tt settled_heap.
Proof.
  apply (transfers_keep_equal_blocks (T := uchar_t) (B := cuda_build)
           image_s settled_heap); reflexivity.
Defined.

Lemma Free_leaves_dangling_pointers_witness :
  ∃ this' h',
    Free (B := cuda_build) image_a worked_heap = Done this' h'
    ∧ data_host this' = Some 1%positive
    ∧ host_block this' h' = None
    ∧ Clear (T := uchar_t) (B := cuda_build) x00 this' h' = Undefined.
Proof.
  destruct (Free_leaves_dangling_pointers (T := uchar_t) (B := cuda_build)
              image_a worked_heap)
    as (this' & h' & HF & _ & _ & _ & Hp & _ & _ & Hb & _ & HC & _).
  - reflexivity.
  - exists this', h'. split; [exact HF|]. split; [exact Hp|].
    split; [exact Hb|]. exact (HC x00).
Defined.

Lemma SetFrom_device_copy_is_unguarded_witness :
  allocated (T := uchar_t) (B := cuda_build) image_h mixed_heap = true
  ∧ allocated (T := uchar_t) (B := cuda_build) image_a mixed_heap = true
  ∧ (∃ h', SetFrom (T := uchar_t) (B := cuda_build) image_a true false image_h mixed_heap
           = Done tt h'
           ∧ host_bytes image_h h' = host_bytes image_a mixed_heap)
  ∧ SetFrom (T := uchar_t) (B := cuda_build) image_a false false image_h mixed_heap
    = Done tt mixed_heap
  ∧ SetFrom (T := uchar_t) (B := cuda_build) image_a true true image_h mixed_heap
    = Undefined
  ∧ SetFrom (T := uchar_t) (B := cuda_build) image_a false true image_h mixed_heap
    = Undefined.
Proof.
  split; [reflexivity|]. split; [reflexivity|].
  split; [eexists; split; reflexivity|]. split; [reflexivity|].
  split.
  - apply (SetFrom_device_copy_is_unguarded (T := uchar_t) (B := cuda_build)
             image_a image_h true mixed_heap).
    + reflexivity.
    + left. reflexivity.
  - apply (SetFrom_device_copy_is_unguarded (T := uchar_t) (B := cuda_build)
             image_a image_h false mixed_heap).
    + reflexivity.
    + left. reflexivity.
Defined.

Lemma content_calls_only_write_own_blocks_witness :
  ∃ h',
    perform (T := uchar_t) (B := cuda_build) (CallClear x00) image_a worked_heap
    = Done image_a h'
    ∧ only_writes image_a worked_heap h'.
Proof.
  eexists. split; [reflexivity|].
  eapply (content_calls_only_write_own_blocks (T := uchar_t) (B := cuda_build)
            (CallClear x00) image_a); reflexivity.
Defined.

Lemma history_leaves_other_blocks_witness :
  ∃ this h',
    perform_all (T := uchar_t) (B := cuda_build) worked_history (Image_ctor true) worked_heap
    = Done this h'
    ∧ live h' !! 3%positive = Some (Block PinnedHost (bytes_of [x21; x22; x23; x24])).
Proof.
  eexists _, _. split; [reflexivity|].
  eapply (history_leaves_other_blocks (T := uchar_t) (B := cuda_build)
            worked_history (mkVector2i 0 0) true _ worked_heap).
  - reflexivity.
  - reflexivity.
  - left. reflexivity.
Defined.

Lemma history_keeps_class_invariant_witness :
  ∃ this h',
    perform_all (T := uchar_t) (B := cuda_build) resize_history (Image_ctor true) worked_heap
    = Done this h'
    ∧ isAllocated this = true
    ∧ data_host this = Some 9%positive
    ∧ data_device this = Some 10%positive
    ∧ wf (T := uchar_t) (B := cuda_build) this h' = true
    ∧ allocated (T := uchar_t) (B := cuda_build) this h' = true.
Proof.
  eexists _, _. split; [reflexivity|].
  split; [reflexivity|]. split; [reflexivity|]. split; [reflexivity|].
  split.
  - eapply (history_keeps_class_invariant (T := uchar_t) (B := cuda_build)
              resize_history (mkVector2i 0 0) true _ worked_heap).
    left. reflexivity.
  - eapply (history_keeps_class_invariant (T := uchar_t) (B := cuda_build)
              resize_history (mkVector2i 0 0) true _ worked_heap).
    + left. reflexivity.
    + reflexivity.
    + reflexivity.
Defined.

Lemma history_keeps_allocateGPU_witness :
  ∃ this h',
    perform_all (T := uchar_t) (B := cuda_build) worked_history (Image_ctor true) empty_heap
    = Done this h'
    ∧ allocateGPU this = true.
Proof.
  eexists _, _. split; [reflexivity|].
  eapply (history_keeps_allocateGPU (T := uchar_t) (B := cuda_build)
            worked_history (Image_ctor true) _ empty_heap).
  reflexivity.
Defined.

Lemma history_keeps_dataSize_witness :
  ∃ this h',
    (let* t := Image_ctor_dims (T := uchar_t) (B := cuda_build) (mkVector2i 5 4) true in
     perform_all (T := uchar_t) (B := cuda_build) worked_history t) empty_heap
    = Done this h'
    ∧ ∃ dims n, noDims this = Some dims ∧ dataSize this = Some n ∧ n = x dims * y dims.
Proof.
  eexists _, _. split; [reflexivity|].
  eapply (history_keeps_dataSize (T := uchar_t) (B := cuda_build)
            worked_history (mkVector2i 5 4) true _ empty_heap).
  right. reflexivity.
Defined.

Lemma construct_destroy_balanced_witness :
  ∃ this h1 h2,
    Image_ctor_dims (T := uchar_t) (B := cuda_build) (mkVector2i 2 2) true worked_heap
    = Done this h1
    ∧ Image_dtor (B := cuda_build) this h1 = Done (set_isAllocated false this) h2
    ∧ live h2 = live worked_heap
    ∧ length (freed h2) = (length (freed worked_heap) + 2)%nat.
Proof.
  apply (construct_destroy_balanced (T := uchar_t) (B := cuda_build)
           (mkVector2i 2 2) true worked_heap).
  - reflexivity.
  - unfold INT_MAX. simpl. lia.
  - reflexivity.
Defined.

Lemma unallocated_buffer_has_no_storage_witness :
  ∃ this h',
    perform_all (T := uchar_t) (B := cuda_build) worked_history (Image_ctor true) empty_heap
    = Done this h'
    ∧ host_block this h' = None
    ∧ device_block this h' = None
    ∧ ∀ v, Clear (T := uchar_t) (B := cuda_build) v this h' = Undefined.
Proof.
  eexists _, _. split; [reflexivity|].
  eapply (unallocated_buffer_has_no_storage (T := uchar_t) (B := cuda_build)
            worked_history (mkVector2i 0 0) true _ empty_heap).
  - left. reflexivity.
  - reflexivity.
Defined.

Lemma GetData_after_history_witness :
  ∃ this h',
    perform_all (T := uchar_t) (B := cuda_build)
      [CallAllocate (mkVector2i 2 2); CallClear x2a] (Image_ctor true) empty_heap
    = Done this h'
    ∧ ∃ n hb,
        dataSize this = Some n
        ∧ deref h' (GetData false this) = Some (Block PinnedHost hb)
        ∧ Z.of_nat (length hb) = size_bytes (T := uchar_t) n
        ∧ ∃ db, deref h' (GetData true this) = Some (Block DeviceMem db)
                ∧ Z.of_nat (length db) = size_bytes (T := uchar_t) n
                ∧ GetData true this ≠ GetData false this.
Proof.
  eexists _, _. split; [reflexivity|].
  eapply (GetData_after_history (T := uchar_t) (B := cuda_build)
            [CallAllocate (mkVector2i 2 2); CallClear x2a] (mkVector2i 0 0) true
            _ empty_heap).
  - left. reflexivity.
  - reflexivity.
  - reflexivity.
Defined.

(** ** Coherence is not [Clear]'s alone *)

(** C10, as stated, at the transfer [UpdateDeviceFromHost] on the worked
    image [image_a]: its two blocks differ before the call and are equal,
    byte for byte and determinate, after it, and the call establishes
    that on every allocated dual-domain buffer although it is no [Clear].
    So [Clear] is not the one operation that establishes coherence as a
    postcondition. *)
Lemma Clear_is_not_the_one_to_establish_coherence :
  host_bytes image_a worked_heap ≠ device_bytes image_a worked_heap
  ∧ (∃ h',
       UpdateDeviceFromHost (T := uchar_t) (B := cuda_build) image_a worked_heap
       = Done tt h'
       ∧ device_bytes image_a h' = host_bytes image_a h'
       ∧ coherent image_a h')
  ∧ establishes_coherence (T := uchar_t) (B := cuda_build) CallUpdateDeviceFromHost
  ∧ ¬ (∀ c, establishes_coherence (T := uchar_t) (B := cuda_build) c →
            ∃ v, c = CallClear v).
Proof.
  assert (Hest : establishes_coherence (T := uchar_t) (B := cuda_build)
                   CallUpdateDeviceFromHost).
  { intros this h Ha Hg.
    destruct (allocated_dual _ _ Ha Hg) as (n & bh & bd & hb & db & Hh & Hd & Hne).
    assert (Hlen : length hb = length db) by (destruct Hh, Hd; lia).
    pose proof (device_at_store_same hb Hd Hlen) as Hd1.
    pose proof (host_at_store_other bd (Block DeviceMem hb) Hh (not_eq_sym Hne)) as Hh1.
    exists this, (store_block bd (Block DeviceMem hb) h). split_and!.
    - simpl. erewrite bind_done; [done|]. by eapply UpdateDeviceFromHost_done.
    - rewrite (proj2 (host_at_bytes Hh1)). by eexists.
    - by rewrite (proj2 (host_at_bytes Hh1)), (proj2 (device_at_bytes Hd1)). }
  split; [discriminate|]. split.
  - eexists. split; [reflexivity|]. split; [reflexivity|].
    exists [x01; x02; x03; x04]. split; reflexivity.
  - split; [exact Hest|]. intros Hone.
    destruct (Hone CallUpdateDeviceFromHost Hest) as [v Hv]. discriminate Hv.
Qed.
